(** * nordpool2influxdb: the price ingestion pipeline

    A shallow embedding of [src/nordpool2influxdb/nordpool2influxdb.py]:
    the declarative models ([InfluxDBConfig], [NordpoolConfig],
    [CheckerConfig], [HourlyPrice], [AreaValues], [AreaPrices]) with the
    validation their field annotations stand for (the models derive from
    pydantic's [BaseModel], in its 1.x reading: [parse_obj], fields typed
    by their default), the price conversion
    [_convert_price_to_cents_with_vat24], and the coroutines
    [collect_data] and [run] as programs of a small trace-and-exception
    monad.

    Python [float] is IEEE-754 binary64, here the kernel's primitive
    [float].  Python values that reach the validators (the loaded
    configuration tree, the provider's response) are terms of [pyobj]. *)

From Stdlib Require Import ZArith List String Ascii Bool Lia Floats DecimalString.
From Stdlib Require Import Strings.Byte.
Import ListNotations.

(* A decimal literal such as 1.24 stands for the nearest binary64, as it
   does in the source. *)
Set Warnings "-inexact-float,-register-all".

Local Open Scope string_scope.
Local Open Scope Z_scope.
Local Open Scope list_scope.

(* ================================================================== *)
(** ** Price conversion *)

(** [return (1.24 * price * 100) / 1000], each operation rounded to
    binary64 as the interpreter does it. *)
Definition _convert_price_to_cents_with_vat24 (price : float) : float :=
  ((1.24 * price * 100) / 1000)%float.

(** The shorter formula the specification gives as equal to it. *)
Definition vat24_short_formula (x : float) : float :=
  (1.24 * x / 10)%float.

(* ================================================================== *)
(** ** [datetime.datetime] *)

Module Datetime.

(** A datetime with the fields of the Python class; [utcoffset] is the
    offset of a fixed-offset [tzinfo] in microseconds, [None] for a naive
    datetime. *)
Record t := mk {
  year : Z; month : Z; day : Z;
  hour : Z; minute : Z; second : Z; microsecond : Z;
  utcoffset : option Z
}.

Definition digits_of (n : Z) : string :=
  NilZero.string_of_uint (N.to_uint (Z.to_N n)).

Fixpoint zeros (k : nat) : string :=
  match k with
  | O => ""
  | S k' => String "0" (zeros k')
  end.

Definition zfill (width : nat) (s : string) : string :=
  (zeros (width - String.length s) ++ s)%string.

(** ["%0<width>d" % n] *)
Definition fmt_d (width : nat) (n : Z) : string :=
  if n <? 0 then ("-" ++ zfill (width - 1) (digits_of (- n)))%string
  else zfill width (digits_of n).

(** [_format_time] with [timespec='auto']: the fraction is printed only
    when the microsecond is not zero. *)
Definition format_time (d : t) : string :=
  (fmt_d 2 (hour d) ++ ":" ++ fmt_d 2 (minute d) ++ ":" ++ fmt_d 2 (second d)
   ++ (if (microsecond d =? 0)%Z then "" else "." ++ fmt_d 6 (microsecond d)))%string.

(** [_format_offset]: sign, hours and minutes, then seconds and
    microseconds when the offset has any. *)
Definition format_offset (off : option Z) : string :=
  match off with
  | None => ""
  | Some o =>
      let sign := if o <? 0 then "-" else "+" in
      let a := Z.abs o in
      let hh := a / 3600000000 in
      let r := a mod 3600000000 in
      let mm := r / 60000000 in
      let ss := r mod 60000000 in
      (sign ++ fmt_d 2 hh ++ ":" ++ fmt_d 2 mm
       ++ (if (ss =? 0)%Z then ""
           else ":" ++ fmt_d 2 (ss / 1000000)%Z
                ++ (if (ss mod 1000000 =? 0)%Z then ""
                    else "." ++ fmt_d 6 (ss mod 1000000)%Z)))%string
  end.

(** [datetime.isoformat()] *)
Definition isoformat (d : t) : string :=
  (fmt_d 4 (year d) ++ "-" ++ fmt_d 2 (month d) ++ "-" ++ fmt_d 2 (day d)
   ++ "T" ++ format_time d ++ format_offset (utcoffset d))%string.

Definition is_leap (y : Z) : bool :=
  (y mod 4 =? 0) && (negb (y mod 100 =? 0) || (y mod 400 =? 0)).

Definition days_in_month (y m : Z) : Z :=
  if m =? 2 then (if is_leap y then 29 else 28)
  else if (m =? 4) || (m =? 6) || (m =? 9) || (m =? 11) then 30
  else 31.

Definition within (lo x hi : Z) : bool := (lo <=? x) && (x <=? hi).

(** The constructor [datetime(year, month, day, hour, minute, second,
    microsecond, tzinfo=...)]; [None] is its [ValueError]. *)
Definition new (y mo d h mi s us : Z) (tz : option Z) : option t :=
  if within 1 y 9999 && within 1 mo 12 && within 1 d (days_in_month y mo)
     && within 0 h 23 && within 0 mi 59 && within 0 s 59
     && within 0 us 999999
  then Some (mk y mo d h mi s us tz)
  else None.

End Datetime.

(* ================================================================== *)
(** ** Python values *)

(** The objects a YAML loader or the price client hands over: scalars,
    byte strings, dates and datetimes, lists, tuples, sets and dicts.  A
    string lists its code points (those below 256).  A dict lists its
    items in insertion order; the keys of a Python dict are pairwise
    distinct.  A set lists its elements in the order in which iterating
    over it yields them. *)
Inductive pyobj : Type :=
| PyNone
| PyBool (b : bool)
| PyInt (n : Z)
| PyFloat (x : float)
| PyStr (s : string)
| PyDatetime (d : Datetime.t)
| PyList (items : list pyobj)
| PyDict (items : list (pyobj * pyobj))
| PyBytes (bs : list byte)
| PyDate (year month day : Z)
| PyTuple (items : list pyobj)
| PySet (items : list pyobj).

Definition is_key (name : string) (k : pyobj) : bool :=
  match k with
  | PyStr s => String.eqb s name
  | _ => false
  end.

(** [d.get(name)] *)
Fixpoint dict_get (d : list (pyobj * pyobj)) (name : string) : option pyobj :=
  match d with
  | [] => None
  | (k, v) :: rest => if is_key name k then Some v else dict_get rest name
  end.

Definition is_str (k : pyobj) : bool :=
  match k with
  | PyStr _ => true
  | _ => false
  end.

(** Whether [d] may be unpacked into keyword arguments: every key is a
    string. *)
Definition str_keys (d : list (pyobj * pyobj)) : bool :=
  forallb (fun kv => is_str (fst kv)) d.

(** Whether the constructor of a model may be called with [d] unpacked
    into its keyword arguments.  The constructor is declared
    [__init__(__pydantic_self__, **data)]: the call is a [TypeError]
    when a key is no string, and also when a key is the name of the
    constructor's own first parameter. *)
Definition unpacks (d : list (pyobj * pyobj)) : bool :=
  str_keys d
  && match dict_get d "__pydantic_self__" with
     | Some _ => false
     | None => true
     end.

(** [result[k] = v] on a dict under construction: a key already there
    keeps its place and takes the new value. *)
Fixpoint dict_set {A : Type} (d : list (string * A)) (k : string) (v : A)
  : list (string * A) :=
  match d with
  | [] => [(k, v)]
  | (k', v') :: rest =>
      if String.eqb k' k then (k', v) :: rest else (k', v') :: dict_set rest k v
  end.

Definition dict_of_pairs {A : Type} (l : list (string * A)) : list (string * A) :=
  fold_left (fun acc kv => dict_set acc (fst kv) (snd kv)) l [].

(* ================================================================== *)
(** ** Validation errors and exceptions *)

Inductive errkind : Type :=
| MissingError              (* field required *)
| NoneIsNotAllowedError     (* none is not an allowed value *)
| StrError
| IntegerError
| FloatError
| DateTimeError
| ListError
| DictError
| WrappedTypeError          (* a TypeError caught while validating *)
| WrappedValueError.        (* a ValueError caught while validating *)

Inductive locitem : Type :=
| LocField (name : string)
| LocIndex (i : nat)
| LocItem (key : pyobj)     (* the value stored under a key of a mapping *)
| LocKeyMarker.             (* '__key__': the key itself *)

Definition loc := list locitem.
Definition verror := (loc * errkind)%type.

(** The exceptions the program can end with. *)
Inductive exn : Type :=
| ValidationError (model : string) (errors : list verror)
| PyExc (cls : string).

(** What one validator returns: the converted value, the errors it
    collected, or an exception that is not a validation error and leaves
    the whole validation at once. *)
Inductive vres (A : Type) : Type :=
| Valid (a : A)
| Invalid (errors : list verror)
| Raised (e : exn).

Arguments Valid {A} a.
Arguments Invalid {A} errors.
Arguments Raised {A} e.

Definition vmap {A B : Type} (f : A -> B) (r : vres A) : vres B :=
  match r with
  | Valid a => Valid (f a)
  | Invalid es => Invalid es
  | Raised e => Raised e
  end.

(** Two validations in sequence: an escaping exception of the first
    wins, errors of both are collected. *)
Definition vboth {A B C : Type} (f : A -> B -> C) (ra : vres A) (rb : vres B)
  : vres C :=
  match ra, rb with
  | Raised e, _ => Raised e
  | _, Raised e => Raised e
  | Valid a, Valid b => Valid (f a b)
  | Valid _, Invalid eb => Invalid eb
  | Invalid ea, Valid _ => Invalid ea
  | Invalid ea, Invalid eb => Invalid (ea ++ eb)
  end.

Definition fail_at {A : Type} (l : loc) (k : errkind) : vres A :=
  Invalid [(l, k)].

(* ================================================================== *)
(** ** Interpreter and library routines left abstract

    The validators fall back on conversions of the interpreter when a
    value is not of the annotated type already.  Their results are taken
    as given. *)
Class Runtime : Type := {
  (** [float(s)] for a string; [None] is its [ValueError]. *)
  py_float_of_str : string -> option float;
  (** [float(b)] for a byte string; [None] is its [ValueError]. *)
  py_float_of_bytes : list byte -> option float;
  (** [float(n)] for an integer; [None] is its [OverflowError]. *)
  py_float_of_int : Z -> option float;
  (** [int(s)] for a string; [None] is its [ValueError]. *)
  py_int_of_str : string -> option Z;
  (** [int(b)] for a byte string; [None] is its [ValueError]. *)
  py_int_of_bytes : list byte -> option Z;
  (** [int(x)] for a float; [None] for an infinity or a NaN. *)
  py_int_of_float : float -> option Z;
  (** [str(n)] for an integer; [None] is the [ValueError] of an integer
      with more digits than the interpreter converts. *)
  py_str_of_int : Z -> option string;
  (** [str(x)] for a float. *)
  py_str_of_float : float -> string;
  (** [b.decode()] for a byte string; [None] is its
      [UnicodeDecodeError], a [ValueError]. *)
  py_bytes_decode : list byte -> option string;
  (** [dict(v)] for a value that is not a dict; [None] is its
      [TypeError] or [ValueError]. *)
  py_dict : pyobj -> option (list (pyobj * pyobj));
  (** [from_unix_seconds(number)] of the validation library; [None] is a
      [ValueError]. *)
  from_unix_seconds : pyobj -> option Datetime.t;
  (** No float literal contains a colon. *)
  py_float_of_str_colon :
    forall s, existsb (Ascii.eqb ":") (list_ascii_of_string s) = true ->
              py_float_of_str s = None
}.

(* ================================================================== *)
(** ** Validators of the scalar annotations *)

(** The outcome of one scalar conversion, before it is given a place. *)
Inductive leafres (A : Type) : Type :=
| LOk (a : A)
| LErr (k : errkind)
| LRaise (e : exn).

Arguments LOk {A} a.
Arguments LErr {A} k.
Arguments LRaise {A} e.

Definition locate {A : Type} (l : loc) (r : leafres A) : vres A :=
  match r with
  | LOk a => Valid a
  | LErr k => fail_at l k
  | LRaise e => Raised e
  end.

Definition of_option {A : Type} (k : errkind) (o : option A) : leafres A :=
  match o with
  | Some a => LOk a
  | None => LErr k
  end.

(** Annotation [str]: a string as it is; a number through [str()]; a
    byte string decoded.  A [ValueError] of the conversion is caught by
    the field and reported as it is. *)
Definition str_validator `{Runtime} (v : pyobj) : leafres string :=
  match v with
  | PyStr s => LOk s
  | PyInt n => of_option WrappedValueError (py_str_of_int n)
  | PyBool b => LOk (if b then "True" else "False")
  | PyFloat x => LOk (py_str_of_float x)
  | PyBytes bs => of_option WrappedValueError (py_bytes_decode bs)
  | _ => LErr StrError
  end.

(** The longest text the validation library hands to [int()]. *)
Definition max_str_int : nat := 4300.

(** Annotation [int] (inferred from the default [8086]): an integer as
    it is; anything else through [int()], text and byte strings only
    when they are not longer than [max_str_int]. *)
Definition int_validator `{Runtime} (v : pyobj) : leafres Z :=
  match v with
  | PyInt n => LOk n
  | PyBool b => LOk (if b then 1 else 0)
  | PyFloat x => of_option IntegerError (py_int_of_float x)
  | PyStr s =>
      if (max_str_int <? String.length s)%nat then LErr IntegerError
      else of_option IntegerError (py_int_of_str s)
  | PyBytes bs =>
      if (max_str_int <? List.length bs)%nat then LErr IntegerError
      else of_option IntegerError (py_int_of_bytes bs)
  | _ => LErr IntegerError
  end.

(** Annotation [float]: a float as it is; anything else through
    [float()], whose [TypeError] and [ValueError] become a validation
    error and whose [OverflowError] escapes. *)
Definition float_validator `{Runtime} (v : pyobj) : leafres float :=
  match v with
  | PyFloat x => LOk x
  | PyInt n =>
      match py_float_of_int n with
      | Some x => LOk x
      | None => LRaise (PyExc "OverflowError")
      end
  | PyBool b => LOk (if b then 1%float else 0%float)
  | PyStr s => of_option FloatError (py_float_of_str s)
  | PyBytes bs => of_option FloatError (py_float_of_bytes bs)
  | _ => LErr FloatError
  end.

(** *** Timestamps written as text

    The pattern of the validation library,
    [(\d{4})-(\d{1,2})-(\d{1,2})[T ](\d{1,2}):(\d{1,2})
     (?::(\d{1,2})(?:\.(\d{1,6})\d{0,6})?)?(Z|[+-]\d{2}(?::?\d{2})?)?$],
    matched from the start of the text. *)

Definition is_digit (c : ascii) : bool :=
  (48 <=? nat_of_ascii c)%nat && (nat_of_ascii c <=? 57)%nat.

Definition digit_value (c : ascii) : Z := Z.of_nat (nat_of_ascii c) - 48.

Definition int_of_digits (ds : list ascii) : Z :=
  fold_left (fun acc c => 10 * acc + digit_value c) ds 0.

(** The longest run of at most [hi] digits at the head of [s], and what
    follows it. *)
Fixpoint span_digits (hi : nat) (s : list ascii) : list ascii * list ascii :=
  match hi, s with
  | S h, c :: r =>
      if is_digit c
      then let (ds, r') := span_digits h r in (c :: ds, r')
      else ([], s)
  | _, _ => ([], s)
  end.

(** [\d{lo,hi}], taking as many digits as it may. *)
Definition digits_between (lo hi : nat) (s : list ascii)
  : option (list ascii * list ascii) :=
  let (ds, r) := span_digits hi s in
  if (lo <=? List.length ds)%nat then Some (ds, r) else None.

Definition expect (c : ascii) (s : list ascii) : option (list ascii) :=
  match s with
  | x :: r => if Ascii.eqb x c then Some r else None
  | [] => None
  end.

(** [$]: the end of the text, or the line feed that ends it. *)
Definition at_end (s : list ascii) : bool :=
  match s with
  | [] => true
  | [c] => Ascii.eqb c (ascii_of_nat 10)
  | _ => false
  end.

(** The text matched by the group [tzinfo]. *)
Inductive tz_group : Type :=
| TzZulu
| TzOffset (negative : bool) (hh mm : list ascii).

(** [(Z|[+-]\d{2}(?::?\d{2})?)?$] *)
Definition match_tzinfo (s : list ascii) : option (option tz_group) :=
  if at_end s then Some None
  else
    match s with
    | [] => None
    | c :: r =>
        if Ascii.eqb c "Z"
        then (if at_end r then Some (Some TzZulu) else None)
        else if Ascii.eqb c "+" || Ascii.eqb c "-"
        then
          match digits_between 2 2 r with
          | None => None
          | Some (hh, r1) =>
              if at_end r1 then Some (Some (TzOffset (Ascii.eqb c "-") hh []))
              else
                let r2 := match expect ":" r1 with
                          | Some r' => r'
                          | None => r1
                          end in
                match digits_between 2 2 r2 with
                | None => None
                | Some (mm, r3) =>
                    if at_end r3
                    then Some (Some (TzOffset (Ascii.eqb c "-") hh mm))
                    else None
                end
          end
        else None
    end.

(** [(?::(\d{1,2})(?:\.(\d{1,6})\d{0,6})?)?]: the groups [second] and
    [microsecond] when they take part in the match, and the rest. *)
Definition match_seconds (s : list ascii)
  : option (list ascii) * option (list ascii) * list ascii :=
  match expect ":" s with
  | None => (None, None, s)
  | Some r =>
      match digits_between 1 2 r with
      | None => (None, None, s)
      | Some (ss, r1) =>
          match expect "." r1 with
          | None => (Some ss, None, r1)
          | Some r2 =>
              match digits_between 1 6 r2 with
              | None => (Some ss, None, r1)
              | Some (us, r3) => (Some ss, Some us, snd (span_digits 6 r3))
              end
          end
      end
  end.

Record datetime_groups : Type := mk_groups {
  g_year : list ascii; g_month : list ascii; g_day : list ascii;
  g_hour : list ascii; g_minute : list ascii;
  g_second : option (list ascii);
  g_microsecond : option (list ascii);
  g_tzinfo : option tz_group
}.

Definition obind {A B : Type} (o : option A) (f : A -> option B) : option B :=
  match o with
  | Some a => f a
  | None => None
  end.

Notation "'let?' x := o 'in' f" := (obind o (fun x => f))
  (at level 10, x pattern, o at level 100, f at level 200).

(** [datetime_re.match(value)] *)
Definition datetime_re_match (s : list ascii) : option datetime_groups :=
  let? (y, r) := digits_between 4 4 s in
  let? r := expect "-" r in
  let? (mo, r) := digits_between 1 2 r in
  let? r := expect "-" r in
  let? (d, r) := digits_between 1 2 r in
  let? r := match expect "T" r with
            | Some r' => Some r'
            | None => expect " " r
            end in
  let? (h, r) := digits_between 1 2 r in
  let? r := expect ":" r in
  let? (mi, r) := digits_between 1 2 r in
  let '(ss, us, r) := match_seconds r in
  let? tz := match_tzinfo r in
  Some (mk_groups y mo d h mi ss us tz).

(** [kw['microsecond'].ljust(6, '0')] *)
Definition ljust6 (ds : list ascii) : list ascii :=
  ds ++ repeat "0"%char (6 - List.length ds).

(** [_parse_timezone]: the offset in microseconds; [timezone()] refuses
    an offset of a day or more. *)
Definition _parse_timezone (g : option tz_group) : option (option Z) :=
  match g with
  | None => Some None
  | Some TzZulu => Some (Some 0)
  | Some (TzOffset neg hh mm) =>
      let offset := 60 * int_of_digits hh + int_of_digits mm in
      let offset := if neg then - offset else offset in
      if (-1440 <? offset) && (offset <? 1440)
      then Some (Some (offset * 60000000))
      else None
  end.

Definition datetime_of_groups (g : datetime_groups) : option Datetime.t :=
  let? tz := _parse_timezone (g_tzinfo g) in
  Datetime.new
    (int_of_digits (g_year g)) (int_of_digits (g_month g))
    (int_of_digits (g_day g)) (int_of_digits (g_hour g))
    (int_of_digits (g_minute g))
    (match g_second g with Some ds => int_of_digits ds | None => 0 end)
    (match g_microsecond g with
     | Some ds => int_of_digits (ljust6 ds)
     | None => 0
     end)
    tz.

(** The text of a timestamp read by the pattern. *)
Definition datetime_of_text (s : string) : leafres Datetime.t :=
  match datetime_re_match (list_ascii_of_string s) with
  | None => LErr DateTimeError
  | Some g => of_option DateTimeError (datetime_of_groups g)
  end.

(** [parse_datetime]: a datetime as it is; a number, or text or bytes
    that read as a number, as seconds since the epoch; other text, and
    other bytes once decoded, by the pattern.  Anything else, a date
    without a time included, is a [TypeError] of [get_numeric]. *)
Definition parse_datetime `{Runtime} (value : pyobj) : leafres Datetime.t :=
  match value with
  | PyDatetime d => LOk d
  | PyInt _ | PyFloat _ | PyBool _ =>
      of_option WrappedValueError (from_unix_seconds value)
  | PyStr s =>
      match py_float_of_str s with
      | Some x => of_option WrappedValueError (from_unix_seconds (PyFloat x))
      | None => datetime_of_text s
      end
  | PyBytes bs =>
      match py_float_of_bytes bs with
      | Some x => of_option WrappedValueError (from_unix_seconds (PyFloat x))
      | None =>
          match py_bytes_decode bs with
          | Some s => datetime_of_text s
          | None => LErr WrappedValueError
          end
      end
  | _ => LErr WrappedTypeError
  end.

(* ================================================================== *)
(** ** Fields, lists, mappings and nested models *)

Definition at_field (l : loc) (name : string) : loc := l ++ [LocField name].

(** A field with no default: looked up by its name, refused when it is
    absent or [None], else handed to the validator of its annotation. *)
Definition required_field {A : Type} (l : loc) (d : list (pyobj * pyobj))
    (name : string) (validate : loc -> pyobj -> vres A) : vres A :=
  match dict_get d name with
  | None => fail_at (at_field l name) MissingError
  | Some PyNone => fail_at (at_field l name) NoneIsNotAllowedError
  | Some v => validate (at_field l name) v
  end.

(** A field with a default that is not [None]: the default when absent. *)
Definition default_field {A : Type} (l : loc) (d : list (pyobj * pyobj))
    (name : string) (default : A) (validate : loc -> pyobj -> vres A) : vres A :=
  match dict_get d name with
  | None => Valid default
  | Some PyNone => fail_at (at_field l name) NoneIsNotAllowedError
  | Some v => validate (at_field l name) v
  end.

(** A field annotated [Optional[...]]: [None] when absent or [None]. *)
Definition optional_field {A : Type} (l : loc) (d : list (pyobj * pyobj))
    (name : string) (validate : loc -> pyobj -> vres A) : vres (option A) :=
  match dict_get d name with
  | None => Valid None
  | Some PyNone => Valid None
  | Some v => vmap Some (validate (at_field l name) v)
  end.

Definition vap {A B : Type} (rf : vres (A -> B)) (ra : vres A) : vres B :=
  vboth (fun f a => f a) rf ra.

(** The item of a list and the value of a mapping are validated as
    fields of their own: [None] is refused before the validator of the
    annotation is asked. *)
Definition not_none {A : Type} (validate : loc -> pyobj -> vres A)
    (l : loc) (v : pyobj) : vres A :=
  match v with
  | PyNone => fail_at l NoneIsNotAllowedError
  | _ => validate l v
  end.

(** The items of a list, each validated at its index. *)
Fixpoint validate_items {A : Type} (validate : loc -> pyobj -> vres A)
    (l : loc) (i : nat) (items : list pyobj) : vres (list A) :=
  match items with
  | [] => Valid []
  | v :: rest =>
      vboth cons (not_none validate (l ++ [LocIndex i]) v)
                 (validate_items validate l (S i) rest)
  end.

(** [sequence_like]: the items of a list, a tuple or a set, in the order
    of iteration; nothing else is taken for a list.  (The validation
    library also takes a frozenset, a generator and a deque, which no
    value of [pyobj] is.) *)
Definition sequence_like (v : pyobj) : option (list pyobj) :=
  match v with
  | PyList items => Some items
  | PyTuple items => Some items
  | PySet items => Some items
  | _ => None
  end.

(** Annotation [list[...]] *)
Definition list_field {A : Type} (validate : loc -> pyobj -> vres A)
    (l : loc) (v : pyobj) : vres (list A) :=
  match sequence_like v with
  | Some items => validate_items validate l 0 items
  | None => fail_at l ListError
  end.

(** The key of a mapping annotated [dict[str, ...]] *)
Definition key_validate `{Runtime} (l : loc) (k : pyobj) : vres string :=
  match k with
  | PyNone => fail_at l NoneIsNotAllowedError
  | _ => locate l (str_validator k)
  end.

(** The items of a mapping: the key first, and the value only when the
    key is accepted. *)
Fixpoint validate_entries `{Runtime} {A : Type}
    (validate : loc -> pyobj -> vres A) (l : loc)
    (entries : list (pyobj * pyobj)) : vres (list (string * A)) :=
  match entries with
  | [] => Valid []
  | (k, v) :: rest =>
      vboth cons
        match key_validate (l ++ [LocKeyMarker]) k with
        | Valid k' => vmap (pair k') (not_none validate (l ++ [LocItem k]) v)
        | Invalid es => Invalid es
        | Raised e => Raised e
        end
        (validate_entries validate l rest)
  end.

(** Annotation [dict[str, ...]] *)
Definition mapping_field `{Runtime} {A : Type}
    (validate : loc -> pyobj -> vres A) (l : loc) (v : pyobj)
  : vres (list (string * A)) :=
  match v with
  | PyDict d => vmap dict_of_pairs (validate_entries validate l d)
  | _ =>
      match py_dict v with
      | Some d => vmap dict_of_pairs (validate_entries validate l d)
      | None => fail_at l DictError
      end
  end.

(** A field annotated with a model: a dict is unpacked into the model's
    constructor, anything else goes through [dict()] first.  The errors
    of the nested model come back under the field's place; the
    [TypeError] of a call that cannot be made is caught by the field and
    reported at its place. *)
Definition model_field `{Runtime} {A : Type}
    (validate_model : loc -> list (pyobj * pyobj) -> vres A)
    (l : loc) (v : pyobj) : vres A :=
  match v with
  | PyDict d =>
      if unpacks d then validate_model l d else fail_at l WrappedTypeError
  | _ =>
      match py_dict v with
      | Some d =>
          if unpacks d then validate_model l d else fail_at l WrappedTypeError
      | None => fail_at l DictError
      end
  end.

(* ================================================================== *)
(** ** The models of the program *)

Module AppArgs.
Record t := mk { config_file : string; dry_run : bool }.
End AppArgs.

Module InfluxDBConfig.

Record t := mk {
  host : string;
  port : Z;
  database : string;
  retention_policy : option string
}.

(** The annotated fields ([host], [retention_policy]) are validated
    before the ones whose type is read off their default ([port],
    [database]). *)
Definition validate_model `{Runtime} (l : loc) (d : list (pyobj * pyobj)) : vres t :=
  vap (vap (vap (vmap (fun h rp p db => mk h p db rp)
    (required_field l d "host" (fun l' v => locate l' (str_validator v))))
    (optional_field l d "retention_policy"
       (fun l' v => locate l' (str_validator v))))
    (default_field l d "port" 8086 (fun l' v => locate l' (int_validator v))))
    (default_field l d "database" "energy"
       (fun l' v => locate l' (str_validator v))).

Definition validate `{Runtime} : loc -> pyobj -> vres t :=
  model_field validate_model.

End InfluxDBConfig.

Module NordpoolConfig.

Record t := mk { areas : list string; currency : string }.

Definition validate_model `{Runtime} (l : loc) (d : list (pyobj * pyobj)) : vres t :=
  vboth mk
    (required_field l d "areas"
       (list_field (fun l' v => locate l' (str_validator v))))
    (required_field l d "currency" (fun l' v => locate l' (str_validator v))).

Definition validate `{Runtime} : loc -> pyobj -> vres t :=
  model_field validate_model.

End NordpoolConfig.

Module CheckerConfig.

Record t := mk { influxdb : InfluxDBConfig.t; nordpool : NordpoolConfig.t }.

Definition validate_model `{Runtime} (l : loc) (d : list (pyobj * pyobj)) : vres t :=
  vboth mk
    (required_field l d "influxdb" InfluxDBConfig.validate)
    (required_field l d "nordpool" NordpoolConfig.validate).

End CheckerConfig.

Module HourlyPrice.

Record t := mk { start : Datetime.t; value : float }.

Definition validate_model `{Runtime} (l : loc) (d : list (pyobj * pyobj)) : vres t :=
  vboth mk
    (required_field l d "start" (fun l' v => locate l' (parse_datetime v)))
    (required_field l d "value" (fun l' v => locate l' (float_validator v))).

Definition validate `{Runtime} : loc -> pyobj -> vres t :=
  model_field validate_model.

End HourlyPrice.

Module AreaValues.

Record t := mk { values : list HourlyPrice.t }.

Definition validate_model `{Runtime} (l : loc) (d : list (pyobj * pyobj)) : vres t :=
  vmap mk (required_field l d "values" (list_field HourlyPrice.validate)).

Definition validate `{Runtime} : loc -> pyobj -> vres t :=
  model_field validate_model.

End AreaValues.

Module AreaPrices.

Record t := mk { areas : list (string * AreaValues.t) }.

Definition validate_model `{Runtime} (l : loc) (d : list (pyobj * pyobj)) : vres t :=
  vmap mk (required_field l d "areas" (mapping_field AreaValues.validate)).

(** [AreaPrices.parse_obj(obj)]: an object that is no dict and that
    [dict()] refuses is a validation error at the root; a mapping that
    does not unpack into the constructor's keyword arguments makes the
    constructor call itself fail, with a [TypeError] that nothing
    catches. *)
Definition parse_obj `{Runtime} (obj : pyobj) : vres t :=
  match obj with
  | PyDict d =>
      if unpacks d then validate_model [] d else Raised (PyExc "TypeError")
  | _ =>
      match py_dict obj with
      | Some d =>
          if unpacks d then validate_model [] d
          else Raised (PyExc "TypeError")
      | None => fail_at [LocField "__root__"] WrappedTypeError
      end
  end.

End AreaPrices.

(* ================================================================== *)
(** ** Write records and the database client *)

Module WriteRecord.
(** One element of [json_body]: the dict literal with the keys
    ["measurement"], ["tags"], ["time"] and ["fields"]. *)
Record t := mk {
  measurement : string;
  tags : list (string * string);
  time : string;
  fields : list (string * float)
}.
End WriteRecord.

Module InfluxDBClient.
(** The client built from [client_params]. *)
Record t := mk { host : string; port : Z; database : string }.
End InfluxDBClient.

(** The list comprehension of [collect_data]: the areas in the order of
    [area_prices.areas.items()], the prices of each in the order of
    [price_data.values]. *)
Definition json_body (area_prices : AreaPrices.t) : list WriteRecord.t :=
  flat_map
    (fun item : string * AreaValues.t =>
       let (area, price_data) := item in
       map (fun data : HourlyPrice.t =>
              WriteRecord.mk
                "nordpool_price"
                [("area", area)]
                (Datetime.isoformat (HourlyPrice.start data))
                [("price",
                  _convert_price_to_cents_with_vat24 (HourlyPrice.value data))])
           (AreaValues.values price_data))
    (AreaPrices.areas area_prices).

(* ================================================================== *)
(** ** Effects: the outside world, the trace, exceptions *)

Inductive pyres (A : Type) : Type :=
| Return (a : A)
| Raise (e : exn).

Arguments Return {A} a.
Arguments Raise {A} e.

(** What a finished validation means for the caller. *)
Definition of_vres {A : Type} (model : string) (r : vres A) : pyres A :=
  match r with
  | Valid a => Return a
  | Invalid es => Raise (ValidationError model es)
  | Raised e => Raise e
  end.

(** The collaborators of one run: the configuration file behind a path
    (read and loaded as YAML), the price provider's answer to a query,
    and the database's answer to a batch of points. *)
Record World : Type := mk_world {
  load_config : string -> pyres pyobj;
  provider_fetch : string -> Z -> list string -> pyres pyobj;
  influx_write_points :
    InfluxDBClient.t -> list WriteRecord.t -> option string -> pyres unit
}.

Inductive log_record : Type :=
| LogAreaPrices (area_prices : AreaPrices.t)
| LogSendData (json_body : list WriteRecord.t).   (* "Send data (dry-run): %s" *)

(** What a run does that can be seen from outside, in order. *)
Inductive event : Type :=
| EvSessionOpen (client : nat)
| EvFetch (client : nat) (currency : string) (resolution : Z)
    (areas : list string)
| EvLogDebug (record : log_record)
| EvWritePoints (influx : InfluxDBClient.t) (points : list WriteRecord.t)
    (retention_policy : option string)
| EvSessionClose (client : nat).

(** A program reads the world, extends the trace, and returns or
    raises; what it did before raising stays done. *)
Definition M (A : Type) : Type :=
  World -> list event -> pyres A * list event.

Definition ret {A : Type} (a : A) : M A := fun _ tr => (Return a, tr).

Definition bind {A B : Type} (m : M A) (k : A -> M B) : M B :=
  fun w tr =>
    match m w tr with
    | (Return a, tr') => k a w tr'
    | (Raise e, tr') => (Raise e, tr')
    end.

Notation "x <- m ;; k" := (bind m (fun x => k))
  (at level 61, m at next level, right associativity).
Notation "m ;;; k" := (bind m (fun _ => k))
  (at level 61, right associativity).

Definition emit (ev : event) : M unit := fun _ tr => (Return tt, tr ++ [ev]).

Definition lift {A : Type} (r : pyres A) : M A := fun _ tr => (r, tr).

Definition is_session_open (ev : event) : bool :=
  match ev with
  | EvSessionOpen _ => true
  | _ => false
  end.

(** [aiohttp.client.ClientSession()]: a new session, numbered by the
    sessions opened before it. *)
Definition ClientSession_new : M nat :=
  fun _ tr =>
    let client := List.length (filter is_session_open tr) in
    (Return client, tr ++ [EvSessionOpen client]).

(** [await client.close()] *)
Definition ClientSession_close (client : nat) : M unit :=
  emit (EvSessionClose client).

Module AioPrices.
Record t := mk { currency : string; client : nat }.

(** [await prices.fetch(resolution=..., areas=...)] *)
Definition fetch (prices : t) (resolution : Z) (areas : list string) : M pyobj :=
  fun w tr =>
    (provider_fetch w (currency prices) resolution areas,
     tr ++ [EvFetch (client prices) (currency prices) resolution areas]).
End AioPrices.

(** [logging.debug(...)] *)
Definition logging_debug (record : log_record) : M unit :=
  emit (EvLogDebug record).

(** [influx.write_points(points, retention_policy=...)] *)
Definition write_points (influx : InfluxDBClient.t) (points : list WriteRecord.t)
    (retention_policy : option string) : M unit :=
  fun w tr =>
    (influx_write_points w influx points retention_policy,
     tr ++ [EvWritePoints influx points retention_policy]).

(* ================================================================== *)
(** ** The program *)

Definition collect_data `{Runtime}
    (nordpool_config : NordpoolConfig.t)
    (influx : InfluxDBClient.t)
    (influx_config : InfluxDBConfig.t)
    (dry_run : bool) : M unit :=
  client <- ClientSession_new ;;
  let prices :=
    AioPrices.mk (NordpoolConfig.currency nordpool_config) client in
  data <- AioPrices.fetch prices 15 (NordpoolConfig.areas nordpool_config) ;;
  area_prices <- lift (of_vres "AreaPrices" (AreaPrices.parse_obj data)) ;;
  logging_debug (LogAreaPrices area_prices) ;;;
  let json_body := json_body area_prices in
  (if dry_run
   then logging_debug (LogSendData json_body)
   else write_points influx json_body
          (InfluxDBConfig.retention_policy influx_config)) ;;;
  ClientSession_close client.

(** [CheckerConfig] applied to the unpacked configuration tree: a tree
    that is no mapping cannot be unpacked, and a mapping that does not
    unpack into the constructor's keyword arguments makes the call a
    [TypeError]. *)
Definition CheckerConfig_new `{Runtime} (config : pyobj) : pyres CheckerConfig.t :=
  match config with
  | PyDict d =>
      if unpacks d
      then of_vres "CheckerConfig" (CheckerConfig.validate_model [] d)
      else Raise (PyExc "TypeError")
  | _ => Raise (PyExc "TypeError")
  end.

Definition run `{Runtime} (args : AppArgs.t) : M unit :=
  config <- (fun w tr => (load_config w (AppArgs.config_file args), tr)) ;;
  checker_config <- lift (CheckerConfig_new config) ;;
  let influx_config := CheckerConfig.influxdb checker_config in
  let nordpool_config := CheckerConfig.nordpool checker_config in
  let influx :=
    InfluxDBClient.mk (InfluxDBConfig.host influx_config)
                      (InfluxDBConfig.port influx_config)
                      (InfluxDBConfig.database influx_config) in
  collect_data nordpool_config influx influx_config (AppArgs.dry_run args).

(** The trace of [collect_data] up to the provider's answer. *)
Definition fetched (nordpool_config : NordpoolConfig.t) : list event :=
  [EvSessionOpen 0;
   EvFetch 0 (NordpoolConfig.currency nordpool_config) 15
           (NordpoolConfig.areas nordpool_config)].

(** A program run from an empty trace. *)
Definition exec {A : Type} (m : M A) (w : World) : pyres A * list event :=
  m w [].

(* ================================================================== *)
(** ** Reading a trace *)

(** The batches handed to [write_points]. *)
Definition written_batches (tr : list event) : list (list WriteRecord.t) :=
  flat_map (fun ev => match ev with
                      | EvWritePoints _ points _ => [points]
                      | _ => []
                      end) tr.

(** The batches shown by the dry-run branch. *)
Definition dry_run_batches (tr : list event) : list (list WriteRecord.t) :=
  flat_map (fun ev => match ev with
                      | EvLogDebug (LogSendData body) => [body]
                      | _ => []
                      end) tr.

Definition is_network_call (ev : event) : bool :=
  match ev with
  | EvFetch _ _ _ _ => true
  | EvWritePoints _ _ _ => true
  | _ => false
  end.

Definition network_calls (tr : list event) : list event :=
  filter is_network_call tr.

Definition is_fetch (ev : event) : bool :=
  match ev with
  | EvFetch _ _ _ _ => true
  | _ => false
  end.

Definition is_write (ev : event) : bool :=
  match ev with
  | EvWritePoints _ _ _ => true
  | _ => false
  end.

(** The sessions opened and not closed since, oldest first. *)
Fixpoint open_sessions_from (opened : list nat) (tr : list event) : list nat :=
  match tr with
  | [] => opened
  | EvSessionOpen c :: rest => open_sessions_from (opened ++ [c]) rest
  | EvSessionClose c :: rest =>
      open_sessions_from (filter (fun c' => negb (Nat.eqb c' c)) opened) rest
  | _ :: rest => open_sessions_from opened rest
  end.

Definition open_sessions (tr : list event) : list nat := open_sessions_from [] tr.

Definition raises {A : Type} (r : pyres A) : bool :=
  match r with
  | Raise _ => true
  | Return _ => false
  end.

(* ================================================================== *)
(** ** Shapes of a provider response *)

(** The keyword arguments a value unpacks to, when it does. *)
Definition as_kwargs `{Runtime} (v : pyobj) : option (list (pyobj * pyobj)) :=
  match (match v with
         | PyDict d => Some d
         | _ => py_dict v
         end) with
  | Some d => if unpacks d then Some d else None
  | None => None
  end.

(** The field [name] is there, is not [None], and converts. *)
Definition field_converts {A : Type} (convert : pyobj -> leafres A)
    (d : list (pyobj * pyobj)) (name : string) : bool :=
  match dict_get d name with
  | None => false
  | Some PyNone => false
  | Some v =>
      match convert v with
      | LOk _ => true
      | _ => false
      end
  end.

(** An hourly entry with a parseable timestamp [start] and a numeric
    [value]; whatever else it holds is not looked at. *)
Definition hourly_entry_ok `{Runtime} (e : pyobj) : bool :=
  match e with
  | PyNone => false
  | _ =>
      match as_kwargs e with
      | Some d =>
          field_converts parse_datetime d "start"
          && field_converts float_validator d "value"
      | None => false
      end
  end.

(** An area holding a list [values] of such entries. *)
Definition area_ok `{Runtime} (a : pyobj) : bool :=
  match a with
  | PyNone => false
  | _ =>
      match as_kwargs a with
      | Some d =>
          match dict_get d "values" with
          | Some v =>
              match sequence_like v with
              | Some es => forallb hourly_entry_ok es
              | None => false
              end
          | None => false
          end
      | None => false
      end
  end.

Definition area_key_ok `{Runtime} (k : pyobj) : bool :=
  match k with
  | PyNone => false
  | _ =>
      match str_validator k with
      | LOk _ => true
      | _ => false
      end
  end.

(** A mapping from area codes to such areas. *)
Definition area_map_ok `{Runtime} (v : pyobj) : bool :=
  match (match v with
         | PyNone => None
         | PyDict d => Some d
         | _ => py_dict v
         end) with
  | Some entries =>
      forallb (fun kv => area_key_ok (fst kv) && area_ok (snd kv)) entries
  | None => false
  end.

(** The shape the program reads: an object whose field [areas] is a
    mapping from area codes to areas. *)
Definition response_ok `{Runtime} (raw : pyobj) : bool :=
  match as_kwargs raw with
  | Some d =>
      match dict_get d "areas" with
      | Some v => area_map_ok v
      | None => false
      end
  | None => false
  end.

(** The shape the specification describes: the top level itself is
    keyed by area code, each area holding a list [values]. *)
Definition spec_area_keyed (raw : pyobj) : bool :=
  match raw with
  | PyDict d =>
      forallb (fun kv =>
                 is_str (fst kv)
                 && match snd kv with
                    | PyDict a =>
                        match dict_get a "values" with
                        | Some (PyList _) => true
                        | _ => false
                        end
                    | _ => false
                    end) d
  | _ => false
  end.

(** An item of the area mapping whose list [values] is empty. *)
Definition empty_area (kv : pyobj * pyobj) : Prop :=
  is_str (fst kv) = true
  /\ exists a, snd kv = PyDict a
               /\ unpacks a = true
               /\ dict_get a "values" = Some (PyList []).

(** Whether a validation ended in a value. *)
Definition validb {A : Type} (r : vres A) : bool :=
  match r with
  | Valid _ => true
  | _ => false
  end.

(** Whether a validation collected errors or ended in a value: no
    exception escaped from it. *)
Definition settled {A : Type} (r : vres A) : Prop :=
  match r with
  | Raised _ => False
  | _ => True
  end.

(** The number of hourly entries over all areas. *)
Definition hourly_count (area_prices : AreaPrices.t) : nat :=
  list_sum (map (fun item : string * AreaValues.t =>
                   List.length (AreaValues.values (snd item)))
                (AreaPrices.areas area_prices)).

(** The record the comprehension builds for one price of one area. *)
Definition record_for (area : string) (data : HourlyPrice.t) : WriteRecord.t :=
  WriteRecord.mk
    "nordpool_price"
    [("area", area)]
    (Datetime.isoformat (HourlyPrice.start data))
    [("price", _convert_price_to_cents_with_vat24 (HourlyPrice.value data))].

(** The invariants the specification gives for a database target. *)
Definition valid_tcp_port (p : Z) : bool := (0 <=? p) && (p <=? 65535).

Definition nonempty (s : string) : bool := negb (String.eqb s "").

(* ================================================================== *)
(** ** Sample inputs *)

(** A runtime that refuses every fall-back conversion.  It only fixes
    the abstract routines where a closed statement needs them fixed;
    each such statement is also proved for every runtime. *)
Definition bare_runtime : Runtime := {|
  py_float_of_str := fun _ => None;
  py_float_of_bytes := fun _ => None;
  py_float_of_int := fun _ => None;
  py_int_of_str := fun _ => None;
  py_int_of_bytes := fun _ => None;
  py_int_of_float := fun _ => None;
  py_str_of_int := fun _ => None;
  py_str_of_float := fun _ => "";
  py_bytes_decode := fun _ => None;
  py_dict := fun _ => None;
  from_unix_seconds := fun _ => None;
  py_float_of_str_colon := fun _ _ => eq_refl
|}.

Definition sample_entry (v : float) : pyobj :=
  PyDict [(PyStr "start", PyStr "2024-01-01T00:00:00Z");
          (PyStr "value", PyFloat v)].

(** [{"SE1": {"values": [{"start": "2024-01-01T00:00:00Z", "value": 10.0}]}}] *)
Definition area_keyed_response : pyobj :=
  PyDict [(PyStr "SE1", PyDict [(PyStr "values", PyList [sample_entry 10])])].

(** The same areas under the field [areas]. *)
Definition wrapped_response : pyobj :=
  PyDict [(PyStr "areas", area_keyed_response)].

Definition sample_record : WriteRecord.t :=
  WriteRecord.mk "nordpool_price" [("area", "SE1")]
                 "2024-01-01T00:00:00+00:00" [("price", 1.24%float)].

Definition sample_nordpool : NordpoolConfig.t :=
  NordpoolConfig.mk ["SE1"] "EUR".

Definition sample_influx_config : InfluxDBConfig.t :=
  InfluxDBConfig.mk "localhost" 8086 "energy" None.

Definition sample_influx : InfluxDBClient.t :=
  InfluxDBClient.mk "localhost" 8086 "energy".

(** A world with fixed answers. *)
Definition world_of (config : pyres pyobj) (response : pyres pyobj)
    (written : pyres unit) : World :=
  mk_world (fun _ => config) (fun _ _ _ => response) (fun _ _ _ => written).

(** The configuration tree
    [influxdb: {host: localhost, port: ..., database: ...}]
    [nordpool: {areas: ..., currency: EUR}]. *)
Definition config_tree (port database areas : pyobj) : pyobj :=
  PyDict
    [(PyStr "influxdb",
      PyDict [(PyStr "host", PyStr "localhost");
              (PyStr "port", port);
              (PyStr "database", database)]);
     (PyStr "nordpool",
      PyDict [(PyStr "areas", areas); (PyStr "currency", PyStr "EUR")])].

Definition sample_args (dry_run : bool) : AppArgs.t :=
  AppArgs.mk "config.yaml" dry_run.

(* ================================================================== *)
(** ** Further notions *)

(** The sign of a binary64: [None] for a NaN, else whether the sign bit
    is set. *)
Definition sf_sign (x : spec_float) : option bool :=
  match x with
  | S754_zero s => Some s
  | S754_infinity s => Some s
  | S754_finite s _ _ => Some s
  | S754_nan => None
  end.

Definition float_sign (x : float) : option bool := sf_sign (Prim2SF x).

(** Whether a record carries the tag [area] with this code. *)
Definition has_area (area : string) (r : WriteRecord.t) : bool :=
  match WriteRecord.tags r with
  | [(k, v)] => String.eqb k "area" && String.eqb v area
  | _ => false
  end.

(** The response that holds exactly the values of [area_prices] under
    the declared field names: datetime objects and floats, as the price
    client hands them over. *)
Definition obj_of_hourly_price (data : HourlyPrice.t) : pyobj :=
  PyDict [(PyStr "start", PyDatetime (HourlyPrice.start data));
          (PyStr "value", PyFloat (HourlyPrice.value data))].

Definition obj_of_area_values (price_data : AreaValues.t) : pyobj :=
  PyDict [(PyStr "values",
           PyList (map obj_of_hourly_price (AreaValues.values price_data)))].

Definition obj_of_area_prices (area_prices : AreaPrices.t) : pyobj :=
  PyDict
    [(PyStr "areas",
      PyDict (map (fun item : string * AreaValues.t =>
                     (PyStr (fst item), obj_of_area_values (snd item)))
                  (AreaPrices.areas area_prices)))].

(** The configuration tree that spells out every field of a
    configuration; an absent retention policy is written [None]. *)
Definition tree_of_config (c : CheckerConfig.t) : pyobj :=
  PyDict
    [(PyStr "influxdb",
      PyDict
        [(PyStr "host", PyStr (InfluxDBConfig.host (CheckerConfig.influxdb c)));
         (PyStr "port", PyInt (InfluxDBConfig.port (CheckerConfig.influxdb c)));
         (PyStr "database",
          PyStr (InfluxDBConfig.database (CheckerConfig.influxdb c)));
         (PyStr "retention_policy",
          match InfluxDBConfig.retention_policy (CheckerConfig.influxdb c) with
          | Some rp => PyStr rp
          | None => PyNone
          end)]);
     (PyStr "nordpool",
      PyDict
        [(PyStr "areas",
          PyList (map PyStr (NordpoolConfig.areas (CheckerConfig.nordpool c))));
         (PyStr "currency",
          PyStr (NordpoolConfig.currency (CheckerConfig.nordpool c)))])].

(** Whether a loaded tree can be unpacked into the keyword arguments of
    [CheckerConfig]: it is a mapping and all its keys are strings. *)
Definition unpackable (tree : pyobj) : bool :=
  match tree with
  | PyDict d => str_keys d
  | _ => false
  end.

(** What an event of a run owes to the configuration: the query its
    currency and areas, the write its client and retention policy. *)
Definition event_of_config (c : CheckerConfig.t) (ev : event) : Prop :=
  match ev with
  | EvFetch _ currency resolution areas =>
      currency = NordpoolConfig.currency (CheckerConfig.nordpool c)
      /\ resolution = 15
      /\ areas = NordpoolConfig.areas (CheckerConfig.nordpool c)
  | EvWritePoints influx _ retention_policy =>
      influx = InfluxDBClient.mk
                 (InfluxDBConfig.host (CheckerConfig.influxdb c))
                 (InfluxDBConfig.port (CheckerConfig.influxdb c))
                 (InfluxDBConfig.database (CheckerConfig.influxdb c))
      /\ retention_policy
         = InfluxDBConfig.retention_policy (CheckerConfig.influxdb c)
  | _ => True
  end.

(** A validation reports the errors [ee]: it does not end in a value,
    and when it ends in collected errors, [ee] are among them. *)
Definition reports {A : Type} (r : vres A) (ee : list verror) : Prop :=
  match r with
  | Valid _ => False
  | Invalid es => incl ee es
  | Raised _ => True
  end.

(** A response with two areas of two prices each, as the price client
    hands it over; the second area holds its prices in a tuple. *)
Definition hour_of_day (hour : Z) : Datetime.t :=
  Datetime.mk 2024 1 1 hour 0 0 0 (Some 0).

Definition two_area_prices : AreaPrices.t :=
  AreaPrices.mk
    [("SE1", AreaValues.mk [HourlyPrice.mk (hour_of_day 0) 10;
                            HourlyPrice.mk (hour_of_day 1) 20]);
     ("FI", AreaValues.mk [HourlyPrice.mk (hour_of_day 0) 30;
                           HourlyPrice.mk (hour_of_day 1) 40])].

Definition two_area_response : pyobj :=
  PyDict
    [(PyStr "areas",
      PyDict
        [(PyStr "SE1",
          PyDict [(PyStr "values",
                   PyList [obj_of_hourly_price
                             (HourlyPrice.mk (hour_of_day 0) 10);
                           obj_of_hourly_price
                             (HourlyPrice.mk (hour_of_day 1) 20)])]);
         (PyStr "FI",
          PyDict [(PyStr "values",
                   PyTuple [obj_of_hourly_price
                              (HourlyPrice.mk (hour_of_day 0) 30);
                            obj_of_hourly_price
                              (HourlyPrice.mk (hour_of_day 1) 40)])])])].

(** A response in which two keys of the area mapping, the text ["True"]
    and the truth value [True], are different keys of the dict and
    convert to the same area code. *)
Definition repeated_code_response : pyobj :=
  PyDict
    [(PyStr "areas",
      PyDict
        [(PyStr "SE1", PyDict [(PyStr "values", PyList [])]);
         (PyStr "True", PyDict [(PyStr "values", PyList [])]);
         (PyStr "FI", PyDict [(PyStr "values", PyList [])]);
         (PyBool true,
          PyDict [(PyStr "values",
                   PyList [obj_of_hourly_price
                             (HourlyPrice.mk (hour_of_day 0) 10)])])])].

(** A response whose area SE1 holds a well-formed entry, [None] and an
    entry without [start]. *)
Definition faulty_entries_response : pyobj :=
  PyDict
    [(PyStr "areas",
      PyDict
        [(PyStr "SE1",
          PyDict [(PyStr "values",
                   PyList [sample_entry 10;
                           PyNone;
                           PyDict [(PyStr "value", PyFloat 1)]])])])].

(* ================================================================== *)
(** * Properties *)

(** ** Sign symmetry of the binary64 operations *)

Section FloatSign.

Lemma binary_round_aux_negb (s : bool) (m e : Z) (l : SpecFloat.location) :
  binary_round_aux prec emax (negb s) m e l
  = SFopp (binary_round_aux prec emax s m e l).
Proof.
  unfold binary_round_aux.
  destruct (shr_fexp prec emax m e l) as [mrs e'].
  destruct (shr_fexp prec emax _ e' loc_Exact) as [mrs' e''].
  destruct (shr_m mrs'); try reflexivity.
  destruct (e'' <=? emax - prec)%Z; reflexivity.
Qed.

Lemma SF64mul_opp_r (a b : spec_float) :
  SF64mul a (SFopp b) = SFopp (SF64mul a b).
Proof.
  unfold SF64mul.
  destruct a as [sa | sa | | sa ma ea], b as [sb | sb | | sb mb eb];
    simpl; try reflexivity;
    try (rewrite <- binary_round_aux_negb);
    try (destruct sa, sb; reflexivity).
Qed.

Lemma SF64mul_opp_l (a b : spec_float) :
  SF64mul (SFopp a) b = SFopp (SF64mul a b).
Proof.
  unfold SF64mul.
  destruct a as [sa | sa | | sa ma ea], b as [sb | sb | | sb mb eb];
    simpl; try reflexivity;
    try (rewrite <- binary_round_aux_negb);
    try (destruct sa, sb; reflexivity).
Qed.

Lemma SF64div_opp_l (a b : spec_float) :
  SF64div (SFopp a) b = SFopp (SF64div a b).
Proof.
  unfold SF64div.
  destruct a as [sa | sa | | sa ma ea], b as [sb | sb | | sb mb eb];
    simpl; try reflexivity;
    try (destruct sa, sb; reflexivity).
  destruct (SFdiv_core_binary prec emax (Z.pos ma) ea (Z.pos mb) eb)
    as [[mz ez] lz].
  rewrite <- binary_round_aux_negb.
  destruct sa, sb; reflexivity.
Qed.

Lemma Prim2SF_eq (x y : float) : Prim2SF x = Prim2SF y -> x = y.
Proof.
  intro E.
  rewrite <- (SF2Prim_Prim2SF x), <- (SF2Prim_Prim2SF y), E. reflexivity.
Qed.

Lemma float_mul_opp_r (a b : float) : (a * - b = - (a * b))%float.
Proof.
  apply Prim2SF_eq.
  rewrite mul_spec, !opp_spec, mul_spec. apply SF64mul_opp_r.
Qed.

Lemma float_mul_opp_l (a b : float) : (- a * b = - (a * b))%float.
Proof.
  apply Prim2SF_eq.
  rewrite mul_spec, !opp_spec, mul_spec. apply SF64mul_opp_l.
Qed.

Lemma float_div_opp_l (a b : float) : (- a / b = - (a / b))%float.
Proof.
  apply Prim2SF_eq.
  rewrite div_spec, !opp_spec, div_spec. apply SF64div_opp_l.
Qed.

End FloatSign.

(** ** The price conversion *)

(** C2, as stated, fails on binary64: at the float nearest to 0.3 the
    conversion returns 0.037200000000000004 and the short formula
    [1.24 * x / 10] returns 0.0372, so the two are not equal for every
    input. *)
Lemma C2_short_formula_differs :
  _convert_price_to_cents_with_vat24 0.3 = 0.037200000000000004%float
  /\ vat24_short_formula 0.3 = 0.0372%float
  /\ PrimFloat.eqb (_convert_price_to_cents_with_vat24 0.3)
                   (vat24_short_formula 0.3) = false.
Proof. repeat split; vm_compute; reflexivity. Qed.

(** C2, amended: for every binary64 input the conversion is
    [(1.24 * x * 100) / 1000] with each operation rounded, it has no
    error case and treats a negative price as the mirror image of the
    positive one ([convert (- x) = - convert x], so no sign is special),
    and it agrees with the short formula [1.24 * x / 10] at 0, 10.0 and
    -5.0, where it returns 0, 1.24 and -0.62. *)
Theorem C2_convert_price_binary64 :
  (forall x : float,
     _convert_price_to_cents_with_vat24 x = ((1.24 * x * 100) / 1000)%float)
  /\ (forall x : float,
        _convert_price_to_cents_with_vat24 (- x)
        = (- _convert_price_to_cents_with_vat24 x)%float)
  /\ _convert_price_to_cents_with_vat24 (-5) = (-0.62)%float
  /\ _convert_price_to_cents_with_vat24 10 = 1.24%float
  /\ _convert_price_to_cents_with_vat24 0 = 0%float
  /\ (forall x : float,
        In x [0; 10; -5]%float ->
        _convert_price_to_cents_with_vat24 x = vat24_short_formula x).
Proof.
  split; [reflexivity |].
  split.
  { intro x. unfold _convert_price_to_cents_with_vat24.
    rewrite float_mul_opp_r, float_mul_opp_l, float_div_opp_l. reflexivity. }
  repeat split; try (vm_compute; reflexivity).
  intros x [<- | [<- | [<- | []]]]; vm_compute; reflexivity.
Qed.

(** ** The record builder *)

Lemma json_body_cons (area : string) (price_data : AreaValues.t)
    (rest : list (string * AreaValues.t)) :
  json_body (AreaPrices.mk ((area, price_data) :: rest))
  = map (record_for area) (AreaValues.values price_data)
    ++ json_body (AreaPrices.mk rest).
Proof. reflexivity. Qed.

Lemma json_body_length (area_prices : AreaPrices.t) :
  List.length (json_body area_prices) = hourly_count area_prices.
Proof.
  destruct area_prices as [areas]. unfold hourly_count. simpl.
  induction areas as [| [area price_data] rest IH].
  - reflexivity.
  - rewrite json_body_cons, length_app, length_map. simpl.
    f_equal. exact IH.
Qed.

Lemma json_body_in (area_prices : AreaPrices.t) (r : WriteRecord.t) :
  In r (json_body area_prices) <->
  exists area price_data data,
    In (area, price_data) (AreaPrices.areas area_prices)
    /\ In data (AreaValues.values price_data)
    /\ r = record_for area data.
Proof.
  unfold json_body. rewrite in_flat_map. split.
  - intros [[area price_data] [Hin Hr]]. apply in_map_iff in Hr.
    destruct Hr as [data [Hr Hd]].
    exists area, price_data, data. repeat split; auto.
  - intros [area [price_data [data [Hin [Hd Hr]]]]].
    exists (area, price_data). split; [exact Hin |].
    apply in_map_iff. exists data. split; [symmetry; exact Hr | exact Hd].
Qed.

(** C3: the record builder emits nothing for no area, and for a first
    area followed by others it emits the records of the first area's
    hourly prices, in their order, and then those of the others: one
    record per hourly price, with measurement "nordpool_price", the area
    code as tag [area], the ISO-8601 rendering of [start] as time and the
    converted value as field [price].  A record is in the output exactly
    when it is the record of some hourly price of some area, and the
    output is as long as the hourly entries over all areas are many. *)
Theorem C3_record_builder (area_prices : AreaPrices.t) :
  json_body (AreaPrices.mk []) = []
  /\ (forall area price_data rest,
        json_body (AreaPrices.mk ((area, price_data) :: rest))
        = map (fun data =>
                 WriteRecord.mk "nordpool_price" [("area", area)]
                   (Datetime.isoformat (HourlyPrice.start data))
                   [("price",
                     _convert_price_to_cents_with_vat24
                       (HourlyPrice.value data))])
              (AreaValues.values price_data)
          ++ json_body (AreaPrices.mk rest))
  /\ (forall r,
        In r (json_body area_prices) <->
        exists area price_data data,
          In (area, price_data) (AreaPrices.areas area_prices)
          /\ In data (AreaValues.values price_data)
          /\ r = record_for area data)
  /\ List.length (json_body area_prices) = hourly_count area_prices.
Proof.
  split; [reflexivity |].
  split; [intros; apply json_body_cons |].
  split; [intro r; apply json_body_in | apply json_body_length].
Qed.

(** ** Executions of [collect_data] and [run] *)

Section Pipeline.

Context {R : Runtime}.
Variable W : World.
Variable nordpool_config : NordpoolConfig.t.
Variable influx : InfluxDBClient.t.
Variable influx_config : InfluxDBConfig.t.

(** Every execution of [collect_data], by what the provider, the
    validation and the database answer. *)
Lemma collect_data_exec (dry_run : bool) :
  exec (collect_data nordpool_config influx influx_config dry_run) W
  = match provider_fetch W (NordpoolConfig.currency nordpool_config) 15
            (NordpoolConfig.areas nordpool_config) with
    | Raise e => (Raise e, fetched nordpool_config)
    | Return data =>
        match AreaPrices.parse_obj data with
        | Raised e => (Raise e, fetched nordpool_config)
        | Invalid es =>
            (Raise (ValidationError "AreaPrices" es), fetched nordpool_config)
        | Valid ap =>
            if dry_run
            then (Return tt,
                  fetched nordpool_config
                  ++ [EvLogDebug (LogAreaPrices ap);
                      EvLogDebug (LogSendData (json_body ap));
                      EvSessionClose 0])
            else
              match influx_write_points W influx (json_body ap)
                      (InfluxDBConfig.retention_policy influx_config) with
              | Return _ =>
                  (Return tt,
                   fetched nordpool_config
                   ++ [EvLogDebug (LogAreaPrices ap);
                       EvWritePoints influx (json_body ap)
                         (InfluxDBConfig.retention_policy influx_config);
                       EvSessionClose 0])
              | Raise e =>
                  (Raise e,
                   fetched nordpool_config
                   ++ [EvLogDebug (LogAreaPrices ap);
                       EvWritePoints influx (json_body ap)
                         (InfluxDBConfig.retention_policy influx_config)])
              end
        end
    end.
Proof.
  unfold exec, collect_data, bind, ClientSession_new, AioPrices.fetch, lift,
    write_points, logging_debug, ClientSession_close, emit.
  simpl.
  destruct (provider_fetch W _ 15 _) as [data | e]; [| reflexivity].
  destruct (AreaPrices.parse_obj data) as [ap | es | e]; try reflexivity.
  destruct dry_run; simpl; [reflexivity |].
  destruct (influx_write_points W influx _ _) as [[] | e]; reflexivity.
Qed.

Lemma collect_data_fetch_raises (dry_run : bool) (e : exn) :
  provider_fetch W (NordpoolConfig.currency nordpool_config) 15
                 (NordpoolConfig.areas nordpool_config) = Raise e ->
  exec (collect_data nordpool_config influx influx_config dry_run) W
  = (Raise e, fetched nordpool_config).
Proof. intro Hf. rewrite collect_data_exec, Hf. reflexivity. Qed.

Lemma collect_data_parse_fails (dry_run : bool) (data : pyobj) (e : exn) :
  provider_fetch W (NordpoolConfig.currency nordpool_config) 15
                 (NordpoolConfig.areas nordpool_config) = Return data ->
  of_vres "AreaPrices" (AreaPrices.parse_obj data) = Raise e ->
  exec (collect_data nordpool_config influx influx_config dry_run) W
  = (Raise e, fetched nordpool_config).
Proof.
  intros Hf Hp. rewrite collect_data_exec, Hf.
  destruct (AreaPrices.parse_obj data); simpl in Hp; try discriminate;
    injection Hp as <-; reflexivity.
Qed.

Lemma collect_data_dry_run (data : pyobj) (ap : AreaPrices.t) :
  provider_fetch W (NordpoolConfig.currency nordpool_config) 15
                 (NordpoolConfig.areas nordpool_config) = Return data ->
  AreaPrices.parse_obj data = Valid ap ->
  exec (collect_data nordpool_config influx influx_config true) W
  = (Return tt,
     fetched nordpool_config
     ++ [EvLogDebug (LogAreaPrices ap);
         EvLogDebug (LogSendData (json_body ap));
         EvSessionClose 0]).
Proof. intros Hf Hp. rewrite collect_data_exec, Hf, Hp. reflexivity. Qed.

Lemma collect_data_write (data : pyobj) (ap : AreaPrices.t) :
  provider_fetch W (NordpoolConfig.currency nordpool_config) 15
                 (NordpoolConfig.areas nordpool_config) = Return data ->
  AreaPrices.parse_obj data = Valid ap ->
  exec (collect_data nordpool_config influx influx_config false) W
  = match influx_write_points W influx (json_body ap)
            (InfluxDBConfig.retention_policy influx_config) with
    | Return _ =>
        (Return tt,
         fetched nordpool_config
         ++ [EvLogDebug (LogAreaPrices ap);
             EvWritePoints influx (json_body ap)
               (InfluxDBConfig.retention_policy influx_config);
             EvSessionClose 0])
    | Raise e =>
        (Raise e,
         fetched nordpool_config
         ++ [EvLogDebug (LogAreaPrices ap);
             EvWritePoints influx (json_body ap)
               (InfluxDBConfig.retention_policy influx_config)])
    end.
Proof. intros Hf Hp. rewrite collect_data_exec, Hf, Hp. reflexivity. Qed.

End Pipeline.

(** Case analysis over the executions of [collect_data] in the goal: the
    provider's answer, the validation, the mode, the database's answer. *)
Ltac collect_data_cases :=
  rewrite ?collect_data_exec;
  repeat match goal with
         | |- context [match provider_fetch ?w ?c ?r ?a with _ => _ end] =>
             destruct (provider_fetch w c r a)
         | |- context [match AreaPrices.parse_obj ?d with _ => _ end] =>
             destruct (AreaPrices.parse_obj d)
         | |- context [match influx_write_points ?w ?i ?p ?r with _ => _ end] =>
             destruct (influx_write_points w i p r)
         | |- context [if ?b then _ else _] => is_var b; destruct b
         end.

Section PipelineFacts.

Context {R : Runtime}.
Variable W : World.
Variable nordpool_config : NordpoolConfig.t.
Variable influx : InfluxDBClient.t.
Variable influx_config : InfluxDBConfig.t.

(** The batches of both modes, whatever the provider answers. *)
Lemma collect_data_batches :
  dry_run_batches
    (snd (exec (collect_data nordpool_config influx influx_config true) W))
  = written_batches
      (snd (exec (collect_data nordpool_config influx influx_config false) W))
  /\ written_batches
       (snd (exec (collect_data nordpool_config influx influx_config true) W))
     = [].
Proof. collect_data_cases; split; reflexivity. Qed.

(** The session is open at the end exactly when [collect_data] raised. *)
Lemma collect_data_open_sessions (dry_run : bool) :
  let out :=
    exec (collect_data nordpool_config influx influx_config dry_run) W in
  open_sessions (snd out) = if raises (fst out) then [0%nat] else [].
Proof. cbv zeta. collect_data_cases; reflexivity. Qed.

(** One fetch, and at most one write, in every execution. *)
Lemma collect_data_one_fetch (dry_run : bool) :
  let tr :=
    snd (exec (collect_data nordpool_config influx influx_config dry_run) W) in
  List.length (filter is_fetch tr) = 1%nat
  /\ (List.length (filter is_write tr) <= 1)%nat.
Proof. cbv zeta. collect_data_cases; simpl; lia. Qed.

Lemma collect_data_trace_prefix (dry_run : bool) :
  exists rest,
    snd (exec (collect_data nordpool_config influx influx_config dry_run) W)
    = fetched nordpool_config ++ rest.
Proof.
  collect_data_cases; simpl snd;
    try (eexists; reflexivity); exists []; reflexivity.
Qed.

End PipelineFacts.

Section Run.

Context {R : Runtime}.
Variable W : World.

Lemma run_load_raises (args : AppArgs.t) (e : exn) :
  load_config W (AppArgs.config_file args) = Raise e ->
  exec (run args) W = (Raise e, []).
Proof.
  intro Hl. unfold exec, run, bind. rewrite Hl. reflexivity.
Qed.

Lemma run_config_raises (args : AppArgs.t) (tree : pyobj) (e : exn) :
  load_config W (AppArgs.config_file args) = Return tree ->
  CheckerConfig_new tree = Raise e ->
  exec (run args) W = (Raise e, []).
Proof.
  intros Hl Hc. unfold exec, run, bind, lift. rewrite Hl, Hc. reflexivity.
Qed.

Lemma run_collects (args : AppArgs.t) (tree : pyobj) (c : CheckerConfig.t) :
  load_config W (AppArgs.config_file args) = Return tree ->
  CheckerConfig_new tree = Return c ->
  exec (run args) W
  = exec (collect_data
            (CheckerConfig.nordpool c)
            (InfluxDBClient.mk
               (InfluxDBConfig.host (CheckerConfig.influxdb c))
               (InfluxDBConfig.port (CheckerConfig.influxdb c))
               (InfluxDBConfig.database (CheckerConfig.influxdb c)))
            (CheckerConfig.influxdb c)
            (AppArgs.dry_run args)) W.
Proof.
  intros Hl Hc. unfold exec, run, bind, lift. rewrite Hl, Hc. reflexivity.
Qed.

End Run.

(** C1: for every configuration and every provider response, the batches
    the dry-run branch shows are exactly the batches the other branch
    hands to [write_points], in the same order, and the dry run hands
    nothing to [write_points]; when the response parses, that is the one
    batch [json_body] of the parsed prices.  The same holds for a whole
    run from the configuration file on. *)
Theorem C1_dry_run_shows_what_is_written {R : Runtime} (W : World)
    (nordpool_config : NordpoolConfig.t) (influx : InfluxDBClient.t)
    (influx_config : InfluxDBConfig.t) (config_file : string) :
  dry_run_batches
    (snd (exec (collect_data nordpool_config influx influx_config true) W))
  = written_batches
      (snd (exec (collect_data nordpool_config influx influx_config false) W))
  /\ written_batches
       (snd (exec (collect_data nordpool_config influx influx_config true) W))
     = []
  /\ (forall data ap,
        provider_fetch W (NordpoolConfig.currency nordpool_config) 15
          (NordpoolConfig.areas nordpool_config) = Return data ->
        AreaPrices.parse_obj data = Valid ap ->
        dry_run_batches
          (snd (exec (collect_data nordpool_config influx influx_config true)
                     W))
        = [json_body ap])
  /\ dry_run_batches (snd (exec (run (AppArgs.mk config_file true)) W))
     = written_batches (snd (exec (run (AppArgs.mk config_file false)) W))
  /\ written_batches (snd (exec (run (AppArgs.mk config_file true)) W)) = [].
Proof.
  destruct (collect_data_batches W nordpool_config influx influx_config)
    as [Hsame Hnone].
  split; [exact Hsame |]. split; [exact Hnone |].
  split.
  { intros data ap Hf Hp.
    rewrite (collect_data_dry_run W _ influx influx_config data ap Hf Hp).
    reflexivity. }
  destruct (load_config W config_file) as [tree | e] eqn:Hl.
  - destruct (CheckerConfig_new tree) as [c | e] eqn:Hc.
    + rewrite (run_collects W (AppArgs.mk config_file true) tree c Hl Hc).
      rewrite (run_collects W (AppArgs.mk config_file false) tree c Hl Hc).
      simpl AppArgs.dry_run. apply collect_data_batches.
    + rewrite (run_config_raises W (AppArgs.mk config_file true) tree e Hl Hc).
      rewrite (run_config_raises W (AppArgs.mk config_file false) tree e Hl Hc).
      split; reflexivity.
  - rewrite (run_load_raises W (AppArgs.mk config_file true) e Hl).
    rewrite (run_load_raises W (AppArgs.mk config_file false) e Hl).
    split; reflexivity.
Qed.

(** ** The sample response *)

(** A mapping whose keys are known unpacks or does not, whatever its
    values are. *)
Ltac unpack_known :=
  repeat match goal with
         | |- context [unpacks ?d] =>
             let b := eval vm_compute in (unpacks d) in
             change (unpacks d) with b
         end;
  cbv iota.

Lemma not_none_dict {A : Type} (validate : loc -> pyobj -> vres A) (l : loc)
    (d : list (pyobj * pyobj)) :
  not_none validate l (PyDict d) = validate l (PyDict d).
Proof. reflexivity. Qed.

Lemma parse_datetime_sample {R : Runtime} :
  parse_datetime (PyStr "2024-01-01T00:00:00Z")
  = LOk (Datetime.mk 2024 1 1 0 0 0 0 (Some 0)).
Proof.
  unfold parse_datetime.
  rewrite py_float_of_str_colon by reflexivity.
  reflexivity.
Qed.

Lemma sample_entry_valid {R : Runtime} (l : loc) (v : float) :
  HourlyPrice.validate l (sample_entry v)
  = Valid (HourlyPrice.mk (Datetime.mk 2024 1 1 0 0 0 0 (Some 0)) v).
Proof.
  unfold HourlyPrice.validate, model_field, sample_entry.
  unpack_known.
  unfold HourlyPrice.validate_model, required_field.
  simpl dict_get. cbv iota.
  rewrite parse_datetime_sample. reflexivity.
Qed.

Lemma parse_wrapped_response {R : Runtime} :
  AreaPrices.parse_obj wrapped_response
  = Valid (AreaPrices.mk
             [("SE1",
               AreaValues.mk
                 [HourlyPrice.mk (Datetime.mk 2024 1 1 0 0 0 0 (Some 0)) 10])]).
Proof.
  unfold AreaPrices.parse_obj, wrapped_response, area_keyed_response.
  unpack_known.
  unfold AreaPrices.validate_model, required_field.
  simpl dict_get. cbv iota.
  unfold mapping_field, validate_entries, key_validate, str_validator, locate.
  rewrite not_none_dict.
  unfold AreaValues.validate at 1, model_field.
  unpack_known.
  unfold AreaValues.validate_model, required_field.
  simpl dict_get. cbv iota.
  unfold list_field, sequence_like, validate_items.
  change (not_none HourlyPrice.validate ?l (sample_entry ?v))
    with (HourlyPrice.validate l (sample_entry v)).
  rewrite sample_entry_valid. reflexivity.
Qed.

Lemma parse_area_keyed_response {R : Runtime} :
  AreaPrices.parse_obj area_keyed_response
  = Invalid [([LocField "areas"], MissingError)].
Proof. reflexivity. Qed.

(** C4, as stated, fails: the response keyed by area code at its top
    level, which is of the shape the specification describes, has no
    field [areas]; parsing it is a validation error, and the pipeline
    ends with that error after the fetch, in both modes, with no record
    shown or written. *)
Lemma C4_area_keyed_response_rejected :
  spec_area_keyed area_keyed_response = true
  /\ @AreaPrices.parse_obj bare_runtime area_keyed_response
     = Invalid [([LocField "areas"], MissingError)]
  /\ (let out :=
        exec (@collect_data bare_runtime sample_nordpool sample_influx
                sample_influx_config true)
             (world_of (Raise (PyExc "FileNotFoundError"))
                       (Return area_keyed_response) (Return tt)) in
      out = (Raise (ValidationError "AreaPrices"
                      [([LocField "areas"], MissingError)]),
             [EvSessionOpen 0; EvFetch 0 "EUR" 15 ["SE1"]])
      /\ dry_run_batches (snd out) = [])
  /\ (let out :=
        exec (@collect_data bare_runtime sample_nordpool sample_influx
                sample_influx_config false)
             (world_of (Raise (PyExc "FileNotFoundError"))
                       (Return area_keyed_response) (Return tt)) in
      out = (Raise (ValidationError "AreaPrices"
                      [([LocField "areas"], MissingError)]),
             [EvSessionOpen 0; EvFetch 0 "EUR" 15 ["SE1"]])
      /\ written_batches (snd out) = []).
Proof. repeat split. Qed.

(** C4, amended: for the response
    [{"areas": {"SE1": {"values": [{"start": "2024-01-01T00:00:00Z",
    "value": 10.0}]}}}], the same areas under the field [areas], parsing
    succeeds and the pipeline produces exactly one record, with
    measurement "nordpool_price", tag [area] "SE1", time
    "2024-01-01T00:00:00+00:00" and field [price] 1.24: the dry run
    shows that one batch and the other mode hands it to [write_points]. *)
Theorem C4_wrapped_response_one_record {R : Runtime}
    (config : pyres pyobj) (written : pyres unit)
    (nordpool_config : NordpoolConfig.t) (influx : InfluxDBClient.t)
    (influx_config : InfluxDBConfig.t) :
  let W := world_of config (Return wrapped_response) written in
  vmap json_body (AreaPrices.parse_obj wrapped_response)
  = Valid [WriteRecord.mk "nordpool_price" [("area", "SE1")]
             "2024-01-01T00:00:00+00:00" [("price", 1.24%float)]]
  /\ exec (collect_data nordpool_config influx influx_config true) W
     = (Return tt,
        fetched nordpool_config
        ++ [EvLogDebug
              (LogAreaPrices
                 (AreaPrices.mk
                    [("SE1",
                      AreaValues.mk
                        [HourlyPrice.mk
                           (Datetime.mk 2024 1 1 0 0 0 0 (Some 0)) 10])]));
            EvLogDebug (LogSendData [sample_record]);
            EvSessionClose 0])
  /\ written_batches
       (snd (exec (collect_data nordpool_config influx influx_config false) W))
     = [[sample_record]].
Proof.
  intro W.
  split; [rewrite parse_wrapped_response; reflexivity |].
  split.
  - rewrite (collect_data_dry_run W nordpool_config influx influx_config
               wrapped_response _ eq_refl parse_wrapped_response).
    reflexivity.
  - rewrite (collect_data_write W nordpool_config influx influx_config
               wrapped_response _ eq_refl parse_wrapped_response).
    destruct (influx_write_points W influx _ _); reflexivity.
Qed.

(** ** Sessions *)

(** C8 at a failing input: the provider cannot be reached, the fetch
    raises, and [collect_data] ends with that error while the session it
    opened is still open; the same happens when the response does not
    parse and when the write fails. *)
Lemma C8_session_left_open_on_failure :
  (let out :=
     exec (@collect_data bare_runtime sample_nordpool sample_influx
             sample_influx_config false)
          (world_of (Raise (PyExc "FileNotFoundError"))
                    (Raise (PyExc "ClientConnectorError")) (Return tt)) in
   out = (Raise (PyExc "ClientConnectorError"),
          [EvSessionOpen 0; EvFetch 0 "EUR" 15 ["SE1"]])
   /\ open_sessions (snd out) = [0%nat])
  /\ (let out :=
        exec (@collect_data bare_runtime sample_nordpool sample_influx
                sample_influx_config false)
             (world_of (Raise (PyExc "FileNotFoundError"))
                       (Return area_keyed_response) (Return tt)) in
      raises (fst out) = true /\ open_sessions (snd out) = [0%nat])
  /\ (let out :=
        exec (@collect_data bare_runtime sample_nordpool sample_influx
                sample_influx_config false)
             (world_of (Raise (PyExc "FileNotFoundError"))
                       (Return wrapped_response)
                       (Raise (PyExc "InfluxDBClientError"))) in
      fst out = Raise (PyExc "InfluxDBClientError")
      /\ open_sessions (snd out) = [0%nat]).
Proof. repeat split. Qed.

(** ** Failures of the write *)

(** C9: when [dry_run] is false and [write_points] raises, [collect_data]
    ends with that very exception, right after the one write it
    attempted: nothing follows the failed write in the trace, so it is
    neither caught nor retried.  No run of [collect_data], in either
    mode, fetches more than once or writes more than once, and a fetch
    that raises ends the run with its exception as well. *)
Theorem C9_write_error_propagates {R : Runtime} (W : World)
    (nordpool_config : NordpoolConfig.t) (influx : InfluxDBClient.t)
    (influx_config : InfluxDBConfig.t) (data : pyobj) (ap : AreaPrices.t)
    (e : exn)
    (Hfetch : provider_fetch W (NordpoolConfig.currency nordpool_config) 15
                (NordpoolConfig.areas nordpool_config) = Return data)
    (Hparse : AreaPrices.parse_obj data = Valid ap)
    (Hwrite : influx_write_points W influx (json_body ap)
                (InfluxDBConfig.retention_policy influx_config) = Raise e) :
  exec (collect_data nordpool_config influx influx_config false) W
  = (Raise e,
     fetched nordpool_config
     ++ [EvLogDebug (LogAreaPrices ap);
         EvWritePoints influx (json_body ap)
           (InfluxDBConfig.retention_policy influx_config)])
  /\ (forall dry_run,
        let tr :=
          snd (exec (collect_data nordpool_config influx influx_config
                       dry_run) W) in
        List.length (filter is_fetch tr) = 1%nat
        /\ (List.length (filter is_write tr) <= 1)%nat)
  /\ (forall (W' : World) dry_run e',
        provider_fetch W' (NordpoolConfig.currency nordpool_config) 15
          (NordpoolConfig.areas nordpool_config) = Raise e' ->
        exec (collect_data nordpool_config influx influx_config dry_run) W'
        = (Raise e', fetched nordpool_config)).
Proof.
  split.
  - rewrite (collect_data_write W _ influx influx_config data ap Hfetch Hparse).
    rewrite Hwrite. reflexivity.
  - split.
    + intro dry_run. apply collect_data_one_fetch.
    + intros W' dry_run e' Hf. apply collect_data_fetch_raises. exact Hf.
Qed.

(** The theorem at a run whose database refuses the batch. *)
Lemma C9_write_error_propagates_witness :
  exec (@collect_data bare_runtime sample_nordpool sample_influx
          sample_influx_config false)
       (world_of (Raise (PyExc "FileNotFoundError"))
                 (Return wrapped_response)
                 (Raise (PyExc "InfluxDBClientError")))
  = (Raise (PyExc "InfluxDBClientError"),
     [EvSessionOpen 0; EvFetch 0 "EUR" 15 ["SE1"];
      EvLogDebug
        (LogAreaPrices
           (AreaPrices.mk
              [("SE1",
                AreaValues.mk
                  [HourlyPrice.mk (Datetime.mk 2024 1 1 0 0 0 0 (Some 0)) 10])]));
      EvWritePoints sample_influx [sample_record] None]).
Proof.
  apply (proj1
           (@C9_write_error_propagates bare_runtime
              (world_of (Raise (PyExc "FileNotFoundError"))
                        (Return wrapped_response)
                        (Raise (PyExc "InfluxDBClientError")))
              sample_nordpool sample_influx sample_influx_config
              wrapped_response
              (AreaPrices.mk
                 [("SE1",
                   AreaValues.mk
                     [HourlyPrice.mk
                        (Datetime.mk 2024 1 1 0 0 0 0 (Some 0)) 10])])
              (PyExc "InfluxDBClientError")
              eq_refl eq_refl eq_refl)).
Defined.

(** ** Responses without prices *)

Lemma json_body_no_values (area_prices : AreaPrices.t) :
  Forall (fun item : string * AreaValues.t => AreaValues.values (snd item) = [])
         (AreaPrices.areas area_prices) ->
  json_body area_prices = [].
Proof.
  destruct area_prices as [areas]. simpl.
  induction 1 as [| [area price_data] rest Hhd _ IH].
  - reflexivity.
  - rewrite json_body_cons. simpl in Hhd. rewrite Hhd, IH. reflexivity.
Qed.

Lemma dict_set_Forall {A : Type} (P : A -> Prop) (d : list (string * A))
    (k : string) (v : A) :
  Forall (fun kv => P (snd kv)) d -> P v ->
  Forall (fun kv => P (snd kv)) (dict_set d k v).
Proof.
  intros Hd Hv. induction Hd as [| [k' v'] rest Hhd Hrest IH]; simpl.
  - constructor; [exact Hv | constructor].
  - destruct (String.eqb k' k).
    + constructor; [exact Hv | exact Hrest].
    + constructor; [exact Hhd | exact IH].
Qed.

Lemma dict_of_pairs_Forall {A : Type} (P : A -> Prop) (l : list (string * A)) :
  Forall (fun kv => P (snd kv)) l ->
  Forall (fun kv => P (snd kv)) (dict_of_pairs l).
Proof.
  unfold dict_of_pairs.
  assert (G : forall acc,
             Forall (fun kv => P (snd kv)) acc ->
             Forall (fun kv => P (snd kv)) l ->
             Forall (fun kv => P (snd kv))
                    (fold_left (fun acc kv => dict_set acc (fst kv) (snd kv))
                               l acc)).
  { induction l as [| [k v] rest IH]; intros acc Hacc Hl; simpl.
    - exact Hacc.
    - inversion Hl; subst. apply IH; [| assumption].
      apply dict_set_Forall; assumption. }
  intro Hl. apply G; [constructor | exact Hl].
Qed.

Lemma validate_entries_empty_areas {R : Runtime} (l : loc)
    (amap : list (pyobj * pyobj)) :
  Forall empty_area amap ->
  exists entries,
    validate_entries AreaValues.validate l amap = Valid entries
    /\ Forall (fun kv : string * AreaValues.t => AreaValues.values (snd kv) = [])
              entries.
Proof.
  induction 1 as [| [k v] rest [Hk [a [Hv [Ha Hvals]]]] _ [entries [IH1 IH2]]].
  - exists []. split; [reflexivity | constructor].
  - simpl in Hk, Hv. subst v. destruct k; try discriminate.
    exists ((s, AreaValues.mk []) :: entries). split.
    + simpl. rewrite IH1.
      unfold AreaValues.validate, model_field. rewrite Ha.
      unfold AreaValues.validate_model, required_field. rewrite Hvals.
      reflexivity.
    + constructor; [reflexivity | exact IH2].
Qed.

(** C10: when the provider's answer is a mapping that unpacks into the
    keyword arguments of [AreaPrices] and has a field [areas] that is an
    empty mapping, or a mapping in which every area (itself a mapping
    that unpacks) holds an empty list [values], parsing succeeds and the
    record sequence is empty; the dry run shows the empty batch and
    returns; the other mode hands the empty batch to [write_points],
    once, and returns when the database accepts it.  Both close the
    session. *)
Theorem C10_no_prices_no_records {R : Runtime} (W : World)
    (nordpool_config : NordpoolConfig.t) (influx : InfluxDBClient.t)
    (influx_config : InfluxDBConfig.t)
    (top amap : list (pyobj * pyobj))
    (Hfetch : provider_fetch W (NordpoolConfig.currency nordpool_config) 15
                (NordpoolConfig.areas nordpool_config) = Return (PyDict top))
    (Hkeys : unpacks top = true)
    (Hareas : dict_get top "areas" = Some (PyDict amap))
    (Hempty : Forall empty_area amap) :
  exists ap,
    AreaPrices.parse_obj (PyDict top) = Valid ap
    /\ json_body ap = []
    /\ exec (collect_data nordpool_config influx influx_config true) W
       = (Return tt,
          fetched nordpool_config
          ++ [EvLogDebug (LogAreaPrices ap);
              EvLogDebug (LogSendData []);
              EvSessionClose 0])
    /\ written_batches
         (snd (exec (collect_data nordpool_config influx influx_config false) W))
       = [[]]
    /\ (influx_write_points W influx []
          (InfluxDBConfig.retention_policy influx_config) = Return tt ->
        exec (collect_data nordpool_config influx influx_config false) W
        = (Return tt,
           fetched nordpool_config
           ++ [EvLogDebug (LogAreaPrices ap);
               EvWritePoints influx []
                 (InfluxDBConfig.retention_policy influx_config);
               EvSessionClose 0])).
Proof.
  destruct (validate_entries_empty_areas [LocField "areas"] amap Hempty)
    as [entries [Hentries Hvalues]].
  set (ap := AreaPrices.mk (dict_of_pairs entries)).
  assert (Hparse : AreaPrices.parse_obj (PyDict top) = Valid ap).
  { unfold AreaPrices.parse_obj. rewrite Hkeys.
    unfold AreaPrices.validate_model, required_field. rewrite Hareas.
    unfold mapping_field, at_field. simpl app. rewrite Hentries. reflexivity. }
  assert (Hbody : json_body ap = []).
  { apply json_body_no_values. simpl.
    apply (dict_of_pairs_Forall (fun a => AreaValues.values a = [])).
    exact Hvalues. }
  exists ap. split; [exact Hparse |]. split; [exact Hbody |].
  split.
  { rewrite (collect_data_dry_run W _ influx influx_config (PyDict top) ap
               Hfetch Hparse).
    rewrite Hbody. reflexivity. }
  split.
  { rewrite (collect_data_write W _ influx influx_config (PyDict top) ap
               Hfetch Hparse).
    rewrite Hbody.
    destruct (influx_write_points W influx [] _); reflexivity. }
  intro Hw.
  rewrite (collect_data_write W _ influx influx_config (PyDict top) ap
             Hfetch Hparse).
  rewrite Hbody, Hw. reflexivity.
Qed.

(** The theorem at the response
    [{"areas": {"SE1": {"values": []}, "FI": {"values": []}}}]. *)
Lemma C10_no_prices_no_records_witness :
  exists ap,
    @AreaPrices.parse_obj bare_runtime
      (PyDict [(PyStr "areas",
                PyDict [(PyStr "SE1", PyDict [(PyStr "values", PyList [])]);
                        (PyStr "FI", PyDict [(PyStr "values", PyList [])])])])
    = Valid ap
    /\ json_body ap = []
    /\ written_batches
         (snd (exec (@collect_data bare_runtime sample_nordpool sample_influx
                       sample_influx_config false)
                    (world_of (Raise (PyExc "FileNotFoundError"))
                       (Return
                          (PyDict
                             [(PyStr "areas",
                               PyDict
                                 [(PyStr "SE1",
                                   PyDict [(PyStr "values", PyList [])]);
                                  (PyStr "FI",
                                   PyDict [(PyStr "values", PyList [])])])]))
                       (Return tt))))
       = [[]].
Proof.
  assert (Hempty : Forall empty_area
                     [(PyStr "SE1", PyDict [(PyStr "values", PyList [])]);
                      (PyStr "FI", PyDict [(PyStr "values", PyList [])])]).
  { repeat constructor;
      exists [(PyStr "values", PyList [])]; repeat split. }
  destruct (@C10_no_prices_no_records bare_runtime
              (world_of (Raise (PyExc "FileNotFoundError"))
                 (Return
                    (PyDict
                       [(PyStr "areas",
                         PyDict
                           [(PyStr "SE1",
                             PyDict [(PyStr "values", PyList [])]);
                            (PyStr "FI",
                             PyDict [(PyStr "values", PyList [])])])]))
                 (Return tt))
              sample_nordpool sample_influx sample_influx_config
              [(PyStr "areas",
                PyDict [(PyStr "SE1", PyDict [(PyStr "values", PyList [])]);
                        (PyStr "FI", PyDict [(PyStr "values", PyList [])])])]
              [(PyStr "SE1", PyDict [(PyStr "values", PyList [])]);
               (PyStr "FI", PyDict [(PyStr "values", PyList [])])]
              eq_refl eq_refl eq_refl Hempty)
    as [ap [Hp [Hb [_ [Hw _]]]]].
  exists ap. split; [exact Hp |]. split; [exact Hb | exact Hw].
Defined.

(** ** Validation of the configuration *)

Create HintDb settled.

Lemma vboth_settled {A B C : Type} (f : A -> B -> C) (ra : vres A) (rb : vres B) :
  settled ra -> settled rb -> settled (vboth f ra rb).
Proof. destruct ra, rb; simpl; auto. Qed.

Lemma vmap_settled {A B : Type} (f : A -> B) (r : vres A) :
  settled r -> settled (vmap f r).
Proof. destruct r; simpl; auto. Qed.

Lemma vboth_invalid_r {A B C : Type} (f : A -> B -> C) (ra : vres A)
    (rb : vres B) (eb : list verror) :
  settled ra -> rb = Invalid eb ->
  exists es, vboth f ra rb = Invalid es /\ incl eb es.
Proof.
  intros Ha ->. destruct ra as [a | ea | e]; simpl in *.
  - exists eb. split; [reflexivity | apply incl_refl].
  - exists (ea ++ eb). split; [reflexivity | apply incl_appr, incl_refl].
  - contradiction.
Qed.

Lemma vboth_invalid_l {A B C : Type} (f : A -> B -> C) (ra : vres A)
    (rb : vres B) (ea : list verror) :
  ra = Invalid ea -> settled rb ->
  exists es, vboth f ra rb = Invalid es /\ incl ea es.
Proof.
  intros -> Hb. destruct rb as [b | eb | e]; simpl in *.
  - exists ea. split; [reflexivity | apply incl_refl].
  - exists (ea ++ eb). split; [reflexivity | apply incl_appl, incl_refl].
  - contradiction.
Qed.

(** Every case of a conversion that is left is looked at. *)
Ltac leaf_cases :=
  unfold of_option;
  repeat match goal with
         | |- context [match ?x with _ => _ end] => destruct x
         | |- context [if ?b then _ else _] => destruct b
         end.

Lemma str_field_settled {R : Runtime} (l : loc) (v : pyobj) :
  settled (locate l (str_validator v)).
Proof. destruct v; simpl; try exact I; leaf_cases; exact I. Qed.

Lemma int_field_settled {R : Runtime} (l : loc) (v : pyobj) :
  settled (locate l (int_validator v)).
Proof. destruct v; simpl; try exact I; leaf_cases; exact I. Qed.

Lemma not_none_settled {A : Type} (validate : loc -> pyobj -> vres A)
    (l : loc) (v : pyobj) :
  (forall l' v', settled (validate l' v')) ->
  settled (not_none validate l v).
Proof. intro Hv. destruct v; simpl; try apply Hv. exact I. Qed.

Lemma required_field_settled {A : Type} (l : loc) (d : list (pyobj * pyobj))
    (name : string) (validate : loc -> pyobj -> vres A) :
  (forall l' v, settled (validate l' v)) ->
  settled (required_field l d name validate).
Proof.
  intro Hv. unfold required_field.
  destruct (dict_get d name) as [v |]; [| exact I].
  destruct v; try apply Hv. exact I.
Qed.

Lemma default_field_settled {A : Type} (l : loc) (d : list (pyobj * pyobj))
    (name : string) (default : A) (validate : loc -> pyobj -> vres A) :
  (forall l' v, settled (validate l' v)) ->
  settled (default_field l d name default validate).
Proof.
  intro Hv. unfold default_field.
  destruct (dict_get d name) as [v |]; [| exact I].
  destruct v; try apply Hv. exact I.
Qed.

Lemma optional_field_settled {A : Type} (l : loc) (d : list (pyobj * pyobj))
    (name : string) (validate : loc -> pyobj -> vres A) :
  (forall l' v, settled (validate l' v)) ->
  settled (optional_field l d name validate).
Proof.
  intro Hv. unfold optional_field.
  destruct (dict_get d name) as [v |]; [| exact I].
  destruct v; try (apply vmap_settled, Hv). exact I.
Qed.

Lemma validate_items_settled {A : Type} (validate : loc -> pyobj -> vres A)
    (l : loc) (items : list pyobj) :
  (forall l' v, settled (validate l' v)) ->
  forall i, settled (validate_items validate l i items).
Proof.
  intro Hv. induction items as [| v rest IH]; intro i; simpl.
  - exact I.
  - apply vboth_settled; [apply not_none_settled, Hv | apply IH].
Qed.

Lemma list_field_settled {A : Type} (validate : loc -> pyobj -> vres A)
    (l : loc) (v : pyobj) :
  (forall l' v', settled (validate l' v')) ->
  settled (list_field validate l v).
Proof.
  intro Hv. unfold list_field.
  destruct (sequence_like v) as [items |]; [| exact I].
  apply validate_items_settled, Hv.
Qed.

Lemma model_field_settled {R : Runtime} {A : Type}
    (validate_model : loc -> list (pyobj * pyobj) -> vres A)
    (l : loc) (v : pyobj) :
  (forall l' d, settled (validate_model l' d)) ->
  settled (model_field validate_model l v).
Proof.
  intro Hm. unfold model_field.
  destruct v as [| b | n | x | s | dt | items | items | bs | y m d | items
                 | items];
    try (destruct (py_dict _) as [kw |]; [| exact I];
         destruct (unpacks kw); [apply Hm | exact I]).
  destruct (unpacks items); [apply Hm | exact I].
Qed.

#[local] Hint Resolve vboth_settled vmap_settled str_field_settled
  int_field_settled required_field_settled default_field_settled
  optional_field_settled list_field_settled model_field_settled : settled.

(** No exception escapes the validation of the two sections of the
    configuration: whatever is wrong with them is collected. *)
Lemma InfluxDBConfig_settled {R : Runtime} (l : loc) (v : pyobj) :
  settled (InfluxDBConfig.validate l v).
Proof.
  apply model_field_settled. intros l' d.
  unfold InfluxDBConfig.validate_model, vap. auto 10 with settled.
Qed.

Lemma NordpoolConfig_settled {R : Runtime} (l : loc) (v : pyobj) :
  settled (NordpoolConfig.validate l v).
Proof.
  apply model_field_settled. intros l' d.
  unfold NordpoolConfig.validate_model. auto 10 with settled.
Qed.

#[local] Hint Resolve InfluxDBConfig_settled NordpoolConfig_settled : settled.

(** An error found in the section [nordpool] is among the errors the
    construction raises. *)
Lemma nordpool_errors_raised {R : Runtime} (d nd : list (pyobj * pyobj))
    (en : list verror) :
  unpacks d = true ->
  dict_get d "nordpool" = Some (PyDict nd) ->
  unpacks nd = true ->
  NordpoolConfig.validate_model [LocField "nordpool"] nd = Invalid en ->
  exists errs,
    CheckerConfig_new (PyDict d) = Raise (ValidationError "CheckerConfig" errs)
    /\ incl en errs.
Proof.
  intros Hk Hn Hnk Hen. unfold CheckerConfig_new. rewrite Hk.
  unfold CheckerConfig.validate_model.
  assert (Hl : settled (required_field [] d "influxdb" InfluxDBConfig.validate))
    by auto with settled.
  assert (Hr : required_field [] d "nordpool" NordpoolConfig.validate
               = Invalid en).
  { unfold required_field. rewrite Hn.
    unfold NordpoolConfig.validate, model_field. rewrite Hnk. exact Hen. }
  destruct (vboth_invalid_r CheckerConfig.mk _ _ en Hl Hr)
    as [errs [Herrs Hincl]].
  exists errs. rewrite Herrs. split; [reflexivity | exact Hincl].
Qed.

(** An error found in the section [influxdb] is among the errors the
    construction raises. *)
Lemma influxdb_errors_raised {R : Runtime} (d idict : list (pyobj * pyobj))
    (ei : list verror) :
  unpacks d = true ->
  dict_get d "influxdb" = Some (PyDict idict) ->
  unpacks idict = true ->
  InfluxDBConfig.validate_model [LocField "influxdb"] idict = Invalid ei ->
  exists errs,
    CheckerConfig_new (PyDict d) = Raise (ValidationError "CheckerConfig" errs)
    /\ incl ei errs.
Proof.
  intros Hk Hi Hik Hei. unfold CheckerConfig_new. rewrite Hk.
  unfold CheckerConfig.validate_model.
  assert (Hl : required_field [] d "influxdb" InfluxDBConfig.validate
               = Invalid ei).
  { unfold required_field. rewrite Hi.
    unfold InfluxDBConfig.validate, model_field. rewrite Hik. exact Hei. }
  assert (Hr : settled (required_field [] d "nordpool" NordpoolConfig.validate))
    by auto with settled.
  destruct (vboth_invalid_l CheckerConfig.mk _ _ ei Hl Hr)
    as [errs [Herrs Hincl]].
  exists errs. rewrite Herrs. split; [reflexivity | exact Hincl].
Qed.

(** A field of a section that does not convert is reported under its
    name. *)
Lemma field_error_at {A : Type} (convert : pyobj -> leafres A) (l : loc)
    (d : list (pyobj * pyobj)) (name : string) (v : pyobj) :
  dict_get d name = Some v ->
  (forall a, convert v <> LOk a) ->
  (forall e, convert v <> LRaise e) ->
  exists k,
    required_field l d name (fun l' v' => locate l' (convert v'))
    = Invalid [(l ++ [LocField name], k)].
Proof.
  intros Hg Hno Hnr. unfold required_field. rewrite Hg.
  destruct (convert v) as [a | k | e] eqn:Hc.
  - destruct (Hno a eq_refl).
  - destruct v; simpl; rewrite ?Hc; eexists; reflexivity.
  - destruct (Hnr e eq_refl).
Qed.

Lemma default_error_at {A : Type} (convert : pyobj -> leafres A) (l : loc)
    (d : list (pyobj * pyobj)) (name : string) (default : A) (v : pyobj) :
  dict_get d name = Some v ->
  (forall a, convert v <> LOk a) ->
  (forall e, convert v <> LRaise e) ->
  exists k,
    default_field l d name default (fun l' v' => locate l' (convert v'))
    = Invalid [(l ++ [LocField name], k)].
Proof.
  intros Hg Hno Hnr. unfold default_field. rewrite Hg.
  destruct (convert v) as [a | k | e] eqn:Hc.
  - destruct (Hno a eq_refl).
  - destruct v; simpl; rewrite ?Hc; eexists; reflexivity.
  - destruct (Hnr e eq_refl).
Qed.

Lemma int_validator_no_raise {R : Runtime} (v : pyobj) (e : exn) :
  int_validator v <> LRaise e.
Proof. destruct v; simpl; try discriminate; leaf_cases; discriminate. Qed.

Lemma str_validator_no_raise {R : Runtime} (v : pyobj) (e : exn) :
  str_validator v <> LRaise e.
Proof. destruct v; simpl; try discriminate; leaf_cases; discriminate. Qed.

(** The field [areas] of the section [nordpool], when it is absent or
    holds something that is neither a list, a tuple nor a set ([None]
    included), is reported under its name. *)
Lemma areas_field_error {R : Runtime} (nd : list (pyobj * pyobj)) :
  dict_get nd "areas" = None
  \/ (exists v, dict_get nd "areas" = Some v /\ sequence_like v = None) ->
  exists k es,
    NordpoolConfig.validate_model [LocField "nordpool"] nd = Invalid es
    /\ In ([LocField "nordpool"; LocField "areas"], k) es.
Proof.
  intro H.
  assert (Ha : exists k,
             required_field [LocField "nordpool"] nd "areas"
               (list_field (fun l' v => locate l' (str_validator v)))
             = Invalid [([LocField "nordpool"; LocField "areas"], k)]).
  { unfold required_field. destruct H as [-> | [v [-> Hv]]].
    - eexists; reflexivity.
    - unfold list_field. rewrite Hv.
      destruct v; eexists; reflexivity. }
  destruct Ha as [k Ha]. exists k.
  unfold NordpoolConfig.validate_model.
  assert (Hc : settled (required_field [LocField "nordpool"] nd "currency"
                          (fun l' v => locate l' (str_validator v))))
    by auto with settled.
  destruct (vboth_invalid_l NordpoolConfig.mk _ _ _ Ha Hc) as [es [Hes Hincl]].
  exists es. split; [exact Hes |]. apply Hincl. left. reflexivity.
Qed.

(** C5, as stated, fails: the configuration whose [areas] list is empty
    is constructed without error, and the run goes on to open a session
    and to query the provider for no area at all. *)
Lemma C5_empty_areas_accepted :
  @CheckerConfig_new bare_runtime
    (config_tree (PyInt 8086) (PyStr "energy") (PyList []))
  = Return (CheckerConfig.mk
              (InfluxDBConfig.mk "localhost" 8086 "energy" None)
              (NordpoolConfig.mk [] "EUR"))
  /\ network_calls
       (snd (exec (@run bare_runtime (sample_args true))
                  (world_of
                     (Return (config_tree (PyInt 8086) (PyStr "energy")
                                          (PyList [])))
                     (Return wrapped_response) (Return tt))))
     = [EvFetch 0 "EUR" 15 []].
Proof. split; reflexivity. Qed.

(** C5, amended: the configuration is constructed for an empty [areas]
    list as for any other list of strings (no minimum length is
    checked): whenever the rest of the configuration validates, a tree
    whose [areas] is empty is constructed with no area, and the run then
    queries the provider for that empty list.  For a tree that unpacks
    into the keyword arguments of [CheckerConfig], with a section
    [nordpool] that unpacks too, construction fails with a validation
    error naming [nordpool.areas] when that field is absent, [None], or
    neither a list, a tuple nor a set.  Whenever construction fails, the
    run ends with that error before it opens a session or makes any
    network call: its trace is empty. *)
Theorem C5_config_failure_precedes_network {R : Runtime} (W : World)
    (args : AppArgs.t) (tree : pyobj)
    (Hload : load_config W (AppArgs.config_file args) = Return tree) :
  (forall e, CheckerConfig_new tree = Raise e ->
             exec (run args) W = (Raise e, [])
             /\ network_calls (snd (exec (run args) W)) = [])
  /\ (forall d nd,
        tree = PyDict d ->
        unpacks d = true ->
        dict_get d "nordpool" = Some (PyDict nd) ->
        unpacks nd = true ->
        dict_get nd "areas" = None
        \/ (exists v, dict_get nd "areas" = Some v /\ sequence_like v = None) ->
        exists errs k,
          CheckerConfig_new tree
          = Raise (ValidationError "CheckerConfig" errs)
          /\ In ([LocField "nordpool"; LocField "areas"], k) errs)
  /\ (forall d nd v influxdb currency,
        tree = PyDict d ->
        unpacks d = true ->
        dict_get d "nordpool" = Some (PyDict nd) ->
        unpacks nd = true ->
        dict_get nd "areas" = Some v ->
        sequence_like v = Some [] ->
        required_field [] d "influxdb" InfluxDBConfig.validate
        = Valid influxdb ->
        required_field [LocField "nordpool"] nd "currency"
          (fun l' v' => locate l' (str_validator v'))
        = Valid currency ->
        CheckerConfig_new tree
        = Return (CheckerConfig.mk influxdb (NordpoolConfig.mk [] currency))
        /\ exists rest,
             snd (exec (run args) W)
             = [EvSessionOpen 0; EvFetch 0 currency 15 []] ++ rest).
Proof.
  split; [| split].
  - intros e He.
    rewrite (run_config_raises W args tree e Hload He). split; reflexivity.
  - intros d nd -> Hk Hn Hnk Hareas.
    destruct (areas_field_error nd Hareas) as [k [es [Hes Hin]]].
    destruct (nordpool_errors_raised d nd es Hk Hn Hnk Hes)
      as [errs [Herrs Hincl]].
    exists errs, k. split; [exact Herrs | apply Hincl, Hin].
  - intros d nd v influxdb currency -> Hk Hn Hnk Hareas Hseq Hi Hc.
    assert (Hnew : CheckerConfig_new (PyDict d)
                   = Return (CheckerConfig.mk influxdb
                               (NordpoolConfig.mk [] currency))).
    { unfold CheckerConfig_new. rewrite Hk.
      unfold CheckerConfig.validate_model. rewrite Hi.
      unfold required_field at 1. rewrite Hn.
      unfold NordpoolConfig.validate, model_field. rewrite Hnk.
      unfold NordpoolConfig.validate_model, at_field. simpl app. rewrite Hc.
      unfold required_field. rewrite Hareas.
      unfold list_field. rewrite Hseq.
      destruct v; try discriminate Hseq; reflexivity. }
    split; [exact Hnew |].
    rewrite (run_collects W args _ _ Hload Hnew).
    apply collect_data_trace_prefix.
Qed.

(** The theorem at a configuration file that leaves [areas] out, at one
    whose [areas] is a text, and at one whose [areas] is an empty tuple. *)
Lemma C5_config_failure_precedes_network_witness :
  (exists errs k,
     @CheckerConfig_new bare_runtime
       (PyDict [(PyStr "influxdb", PyDict [(PyStr "host", PyStr "localhost")]);
                (PyStr "nordpool", PyDict [(PyStr "currency", PyStr "EUR")])])
     = Raise (ValidationError "CheckerConfig" errs)
     /\ In ([LocField "nordpool"; LocField "areas"], k) errs)
  /\ (exists errs k,
        @CheckerConfig_new bare_runtime
          (config_tree (PyInt 8086) (PyStr "energy") (PyStr "SE1"))
        = Raise (ValidationError "CheckerConfig" errs)
        /\ In ([LocField "nordpool"; LocField "areas"], k) errs)
  /\ (@CheckerConfig_new bare_runtime
        (config_tree (PyInt 8086) (PyStr "energy") (PyTuple []))
      = Return (CheckerConfig.mk
                  (InfluxDBConfig.mk "localhost" 8086 "energy" None)
                  (NordpoolConfig.mk [] "EUR"))
      /\ exists rest,
           snd (exec (@run bare_runtime (sample_args false))
                     (world_of
                        (Return (config_tree (PyInt 8086) (PyStr "energy")
                                             (PyTuple [])))
                        (Return wrapped_response) (Return tt)))
           = [EvSessionOpen 0; EvFetch 0 "EUR" 15 []] ++ rest).
Proof.
  split; [| split].
  - apply (proj1 (proj2
      (@C5_config_failure_precedes_network bare_runtime
         (world_of
            (Return
               (PyDict [(PyStr "influxdb",
                         PyDict [(PyStr "host", PyStr "localhost")]);
                        (PyStr "nordpool",
                         PyDict [(PyStr "currency", PyStr "EUR")])]))
            (Return wrapped_response) (Return tt))
         (sample_args false)
         (PyDict [(PyStr "influxdb",
                   PyDict [(PyStr "host", PyStr "localhost")]);
                  (PyStr "nordpool", PyDict [(PyStr "currency", PyStr "EUR")])])
         eq_refl))
      [(PyStr "influxdb", PyDict [(PyStr "host", PyStr "localhost")]);
       (PyStr "nordpool", PyDict [(PyStr "currency", PyStr "EUR")])]
      [(PyStr "currency", PyStr "EUR")]
      eq_refl eq_refl eq_refl eq_refl (or_introl eq_refl)).
  - apply (proj1 (proj2
      (@C5_config_failure_precedes_network bare_runtime
         (world_of
            (Return (config_tree (PyInt 8086) (PyStr "energy") (PyStr "SE1")))
            (Return wrapped_response) (Return tt))
         (sample_args false)
         (config_tree (PyInt 8086) (PyStr "energy") (PyStr "SE1"))
         eq_refl))
      _ [(PyStr "areas", PyStr "SE1"); (PyStr "currency", PyStr "EUR")]
      eq_refl eq_refl eq_refl eq_refl
      (or_intror (ex_intro _ (PyStr "SE1") (conj eq_refl eq_refl)))).
  - apply (proj2 (proj2
      (@C5_config_failure_precedes_network bare_runtime
         (world_of
            (Return (config_tree (PyInt 8086) (PyStr "energy") (PyTuple [])))
            (Return wrapped_response) (Return tt))
         (sample_args false)
         (config_tree (PyInt 8086) (PyStr "energy") (PyTuple []))
         eq_refl))
      _ [(PyStr "areas", PyTuple []); (PyStr "currency", PyStr "EUR")]
      (PyTuple []) (InfluxDBConfig.mk "localhost" 8086 "energy" None) "EUR"
      eq_refl eq_refl eq_refl eq_refl eq_refl eq_refl eq_refl eq_refl).
Defined.

(** C6, as stated, fails: a port that is no TCP port number and an empty
    database name are accepted, and the constructed configuration
    carries them. *)
Lemma C6_invalid_target_accepted :
  @CheckerConfig_new bare_runtime
    (config_tree (PyInt 70000) (PyStr "") (PyList [PyStr "SE1"]))
  = Return (CheckerConfig.mk (InfluxDBConfig.mk "localhost" 70000 "" None)
                             (NordpoolConfig.mk ["SE1"] "EUR"))
  /\ valid_tcp_port 70000 = false
  /\ nonempty "" = false.
Proof. repeat split. Qed.

(** C6, amended: construction checks the type of the database target's
    fields and nothing more.  For a tree that unpacks into the keyword
    arguments of [CheckerConfig], with a section [influxdb] that unpacks
    too, it fails with a validation error naming [influxdb.port] when
    the port does not convert to an integer, and one naming
    [influxdb.database] when the database name does not convert to a
    string.  Whenever the rest of the configuration validates, every
    integer is accepted as port and every string as database name, also
    a port outside 0..65535 and the empty name, and the configuration
    carries them unchanged; an absent port is 8086 and an absent
    database name "energy". *)
Theorem C6_database_target_fields {R : Runtime}
    (d idict : list (pyobj * pyobj))
    (Hkeys : unpacks d = true)
    (Hinflux : dict_get d "influxdb" = Some (PyDict idict))
    (Hikeys : unpacks idict = true) :
  (forall v,
     dict_get idict "port" = Some v ->
     (forall n, int_validator v <> LOk n) ->
     exists errs k,
       CheckerConfig_new (PyDict d) = Raise (ValidationError "CheckerConfig" errs)
       /\ In ([LocField "influxdb"; LocField "port"], k) errs)
  /\ (forall v,
        dict_get idict "database" = Some v ->
        (forall s, str_validator v <> LOk s) ->
        exists errs k,
          CheckerConfig_new (PyDict d)
          = Raise (ValidationError "CheckerConfig" errs)
          /\ In ([LocField "influxdb"; LocField "database"], k) errs)
  /\ (forall host retention_policy nordpool port database,
        required_field [LocField "influxdb"] idict "host"
          (fun l' v => locate l' (str_validator v))
        = Valid host ->
        optional_field [LocField "influxdb"] idict "retention_policy"
          (fun l' v => locate l' (str_validator v))
        = Valid retention_policy ->
        required_field [] d "nordpool" NordpoolConfig.validate
        = Valid nordpool ->
        dict_get idict "port" = Some (PyInt port)
        \/ (dict_get idict "port" = None /\ port = 8086) ->
        dict_get idict "database" = Some (PyStr database)
        \/ (dict_get idict "database" = None /\ database = "energy") ->
        CheckerConfig_new (PyDict d)
        = Return (CheckerConfig.mk
                    (InfluxDBConfig.mk host port database retention_policy)
                    nordpool)).
Proof.
  assert (Hhost : forall l,
             settled (vap (vmap (fun h rp p db => InfluxDBConfig.mk h p db rp)
                             (required_field l idict "host"
                                (fun l' v => locate l' (str_validator v))))
                          (optional_field l idict "retention_policy"
                             (fun l' v => locate l' (str_validator v))))).
  { intro l. unfold vap. auto 10 with settled. }
  split; [| split].
  - intros v Hv Hno.
    destruct (default_error_at int_validator [LocField "influxdb"] idict
                "port" 8086 v Hv Hno (int_validator_no_raise v)) as [k Hp].
    destruct (vboth_invalid_r (fun f a => f a) _ _ _
                (Hhost [LocField "influxdb"]) Hp) as [es1 [Hes1 Hin1]].
    assert (Hdb : settled (default_field [LocField "influxdb"] idict
                             "database" "energy"
                             (fun l' v => locate l' (str_validator v))))
      by auto with settled.
    destruct (vboth_invalid_l (fun f a => f a) _ _ _ Hes1 Hdb)
      as [es2 [Hes2 Hin2]].
    destruct (influxdb_errors_raised d idict es2 Hkeys Hinflux Hikeys Hes2)
      as [errs [Herrs Hincl]].
    exists errs, k. split; [exact Herrs |].
    apply Hincl, Hin2, Hin1. left. reflexivity.
  - intros v Hv Hno.
    destruct (default_error_at str_validator [LocField "influxdb"] idict
                "database" "energy" v Hv Hno (str_validator_no_raise v))
      as [k Hdb].
    assert (Hleft : settled
              (vap (vap (vmap (fun h rp p db => InfluxDBConfig.mk h p db rp)
                           (required_field [LocField "influxdb"] idict "host"
                              (fun l' v => locate l' (str_validator v))))
                        (optional_field [LocField "influxdb"] idict
                           "retention_policy"
                           (fun l' v => locate l' (str_validator v))))
                   (default_field [LocField "influxdb"] idict "port" 8086
                      (fun l' v => locate l' (int_validator v))))).
    { apply vboth_settled; [apply Hhost | auto with settled]. }
    destruct (vboth_invalid_r (fun f a => f a) _ _ _ Hleft Hdb)
      as [es [Hes Hin]].
    destruct (influxdb_errors_raised d idict es Hkeys Hinflux Hikeys Hes)
      as [errs [Herrs Hincl]].
    exists errs, k. split; [exact Herrs |].
    apply Hincl, Hin. left. reflexivity.
  - intros host retention_policy nordpool port database Hh Hrp Hn Hp Hdb.
    unfold CheckerConfig_new. rewrite Hkeys.
    unfold CheckerConfig.validate_model. rewrite Hn.
    unfold required_field at 1. rewrite Hinflux.
    unfold InfluxDBConfig.validate, model_field. rewrite Hikeys.
    unfold InfluxDBConfig.validate_model, at_field. simpl app.
    rewrite Hh, Hrp.
    unfold default_field.
    destruct Hp as [-> | [-> ->]], Hdb as [-> | [-> ->]]; reflexivity.
Qed.

(** The theorem at a configuration file whose port is a list, at one
    whose database name is a date, at one with the port 70000 and the
    empty database name, and at one that leaves both out. *)
Lemma C6_database_target_fields_witness :
  (exists errs k,
     @CheckerConfig_new bare_runtime
       (config_tree (PyList []) (PyStr "energy") (PyList [PyStr "SE1"]))
     = Raise (ValidationError "CheckerConfig" errs)
     /\ In ([LocField "influxdb"; LocField "port"], k) errs)
  /\ (exists errs k,
        @CheckerConfig_new bare_runtime
          (config_tree (PyInt 8086) (PyDate 2024 1 1) (PyList [PyStr "SE1"]))
        = Raise (ValidationError "CheckerConfig" errs)
        /\ In ([LocField "influxdb"; LocField "database"], k) errs)
  /\ @CheckerConfig_new bare_runtime
       (config_tree (PyInt 70000) (PyStr "") (PyList [PyStr "SE1"]))
     = Return (CheckerConfig.mk (InfluxDBConfig.mk "localhost" 70000 "" None)
                                (NordpoolConfig.mk ["SE1"] "EUR"))
  /\ @CheckerConfig_new bare_runtime
       (PyDict [(PyStr "influxdb", PyDict [(PyStr "host", PyStr "localhost")]);
                (PyStr "nordpool",
                 PyDict [(PyStr "areas", PyList [PyStr "SE1"]);
                         (PyStr "currency", PyStr "EUR")])])
     = Return (CheckerConfig.mk
                 (InfluxDBConfig.mk "localhost" 8086 "energy" None)
                 (NordpoolConfig.mk ["SE1"] "EUR")).
Proof.
  split; [| split; [| split]].
  - apply (proj1
      (@C6_database_target_fields bare_runtime
         [(PyStr "influxdb",
           PyDict [(PyStr "host", PyStr "localhost");
                   (PyStr "port", PyList []);
                   (PyStr "database", PyStr "energy")]);
          (PyStr "nordpool",
           PyDict [(PyStr "areas", PyList [PyStr "SE1"]);
                   (PyStr "currency", PyStr "EUR")])]
         [(PyStr "host", PyStr "localhost");
          (PyStr "port", PyList []);
          (PyStr "database", PyStr "energy")]
         eq_refl eq_refl eq_refl)
      (PyList []) eq_refl).
    intros n H. discriminate H.
  - apply (proj1 (proj2
      (@C6_database_target_fields bare_runtime
         [(PyStr "influxdb",
           PyDict [(PyStr "host", PyStr "localhost");
                   (PyStr "port", PyInt 8086);
                   (PyStr "database", PyDate 2024 1 1)]);
          (PyStr "nordpool",
           PyDict [(PyStr "areas", PyList [PyStr "SE1"]);
                   (PyStr "currency", PyStr "EUR")])]
         [(PyStr "host", PyStr "localhost");
          (PyStr "port", PyInt 8086);
          (PyStr "database", PyDate 2024 1 1)]
         eq_refl eq_refl eq_refl))
      (PyDate 2024 1 1) eq_refl).
    intros n H. discriminate H.
  - apply (proj2 (proj2
      (@C6_database_target_fields bare_runtime
         [(PyStr "influxdb",
           PyDict [(PyStr "host", PyStr "localhost");
                   (PyStr "port", PyInt 70000);
                   (PyStr "database", PyStr "")]);
          (PyStr "nordpool",
           PyDict [(PyStr "areas", PyList [PyStr "SE1"]);
                   (PyStr "currency", PyStr "EUR")])]
         [(PyStr "host", PyStr "localhost");
          (PyStr "port", PyInt 70000);
          (PyStr "database", PyStr "")]
         eq_refl eq_refl eq_refl))
      "localhost" None (NordpoolConfig.mk ["SE1"] "EUR") 70000 ""
      eq_refl eq_refl eq_refl (or_introl eq_refl) (or_introl eq_refl)).
  - apply (proj2 (proj2
      (@C6_database_target_fields bare_runtime
         [(PyStr "influxdb", PyDict [(PyStr "host", PyStr "localhost")]);
          (PyStr "nordpool",
           PyDict [(PyStr "areas", PyList [PyStr "SE1"]);
                   (PyStr "currency", PyStr "EUR")])]
         [(PyStr "host", PyStr "localhost")]
         eq_refl eq_refl eq_refl))
      "localhost" None (NordpoolConfig.mk ["SE1"] "EUR") 8086 "energy"
      eq_refl eq_refl eq_refl
      (or_intror (conj eq_refl eq_refl)) (or_intror (conj eq_refl eq_refl))).
Defined.

(** ** Which responses parse *)

Lemma validb_vmap {A B : Type} (f : A -> B) (r : vres A) :
  validb (vmap f r) = validb r.
Proof. destruct r; reflexivity. Qed.

Lemma validb_vboth {A B C : Type} (f : A -> B -> C) (ra : vres A) (rb : vres B) :
  validb (vboth f ra rb) = validb ra && validb rb.
Proof. destruct ra, rb; reflexivity. Qed.

Lemma validb_required_leaf {A : Type} (convert : pyobj -> leafres A)
    (l : loc) (d : list (pyobj * pyobj)) (name : string) :
  validb (required_field l d name (fun l' v => locate l' (convert v)))
  = field_converts convert d name.
Proof.
  unfold required_field, field_converts.
  destruct (dict_get d name) as [v |]; [| reflexivity].
  destruct v; try reflexivity; simpl; destruct (convert _); reflexivity.
Qed.

Lemma validb_model_field {R : Runtime} {A : Type}
    (validate_model : loc -> list (pyobj * pyobj) -> vres A)
    (l : loc) (v : pyobj) :
  validb (model_field validate_model l v)
  = match as_kwargs v with
    | Some d => validb (validate_model l d)
    | None => false
    end.
Proof.
  unfold model_field, as_kwargs.
  destruct v as [| b | n | x | s | dt | items | items | bs | y m d | items
                 | items];
    try (destruct (py_dict _) as [kw |]; [| reflexivity];
         destruct (unpacks kw); reflexivity).
  destruct (unpacks items); reflexivity.
Qed.

Lemma validb_validate_items {A : Type} (validate : loc -> pyobj -> vres A)
    (ok : pyobj -> bool) (l : loc) (items : list pyobj) :
  (forall l' v, validb (not_none validate l' v) = ok v) ->
  forall i, validb (validate_items validate l i items) = forallb ok items.
Proof.
  intro Hok. induction items as [| v rest IH]; intro i; simpl.
  - reflexivity.
  - rewrite validb_vboth, Hok, IH. reflexivity.
Qed.

Lemma validb_key_validate {R : Runtime} (l : loc) (k : pyobj) :
  validb (key_validate l k) = area_key_ok k.
Proof.
  unfold key_validate, area_key_ok.
  destruct k; try reflexivity; simpl; unfold of_option;
    repeat match goal with
           | |- context [match ?x with _ => _ end] => destruct x
           end;
    reflexivity.
Qed.

Lemma validb_validate_entries {R : Runtime} {A : Type}
    (validate : loc -> pyobj -> vres A) (ok : pyobj -> bool) (l : loc)
    (entries : list (pyobj * pyobj)) :
  (forall l' v, validb (not_none validate l' v) = ok v) ->
  validb (validate_entries validate l entries)
  = forallb (fun kv => area_key_ok (fst kv) && ok (snd kv)) entries.
Proof.
  intro Hok. induction entries as [| [k v] rest IH]; simpl.
  - reflexivity.
  - rewrite validb_vboth, IH. f_equal.
    rewrite <- (validb_key_validate (l ++ [LocKeyMarker]) k).
    destruct (key_validate (l ++ [LocKeyMarker]) k); simpl;
      rewrite ?validb_vmap, ?Hok; reflexivity.
Qed.

Lemma validb_HourlyPrice {R : Runtime} (l : loc) (e : pyobj) :
  validb (not_none HourlyPrice.validate l e) = hourly_entry_ok e.
Proof.
  assert (H : validb (HourlyPrice.validate l e)
              = match as_kwargs e with
                | Some d =>
                    field_converts parse_datetime d "start"
                    && field_converts float_validator d "value"
                | None => false
                end).
  { unfold HourlyPrice.validate. rewrite validb_model_field.
    destruct (as_kwargs e) as [d |]; [| reflexivity].
    unfold HourlyPrice.validate_model.
    rewrite validb_vboth, !validb_required_leaf. reflexivity. }
  destruct e; try exact H. reflexivity.
Qed.

Lemma validb_AreaValues {R : Runtime} (l : loc) (a : pyobj) :
  validb (not_none AreaValues.validate l a) = area_ok a.
Proof.
  assert (H : validb (AreaValues.validate l a)
              = match as_kwargs a with
                | Some d =>
                    match dict_get d "values" with
                    | Some v =>
                        match sequence_like v with
                        | Some es => forallb hourly_entry_ok es
                        | None => false
                        end
                    | None => false
                    end
                | None => false
                end).
  { unfold AreaValues.validate. rewrite validb_model_field.
    destruct (as_kwargs a) as [d |]; [| reflexivity].
    unfold AreaValues.validate_model, required_field.
    rewrite validb_vmap.
    destruct (dict_get d "values") as [v |]; [| reflexivity].
    assert (Hl : validb (list_field HourlyPrice.validate
                           (at_field l "values") v)
                 = match sequence_like v with
                   | Some es => forallb hourly_entry_ok es
                   | None => false
                   end).
    { unfold list_field. destruct (sequence_like v) as [es |];
        [| reflexivity].
      apply validb_validate_items. intros. apply validb_HourlyPrice. }
    destruct v; first [exact Hl | reflexivity]. }
  destruct a; try exact H. reflexivity.
Qed.

Lemma validb_area_map {R : Runtime} (l : loc) (v : pyobj) :
  v <> PyNone ->
  validb (mapping_field AreaValues.validate l v) = area_map_ok v.
Proof.
  intro Hv. unfold mapping_field, area_map_ok.
  destruct v as [| b | n | x | s | dt | items | items | bs | y m d | items
                 | items];
    try (destruct (py_dict _) as [kw |]; [| reflexivity];
         rewrite validb_vmap; apply validb_validate_entries;
         intros; apply validb_AreaValues).
  - destruct (Hv eq_refl).
  - rewrite validb_vmap. apply validb_validate_entries.
    intros. apply validb_AreaValues.
Qed.

(** Parsing ends in a value exactly for the responses of the shape
    [response_ok]. *)
Lemma validb_parse_obj {R : Runtime} (raw : pyobj) :
  validb (AreaPrices.parse_obj raw) = response_ok raw.
Proof.
  unfold AreaPrices.parse_obj, response_ok, as_kwargs.
  assert (H : forall d,
             validb (AreaPrices.validate_model [] d)
             = match dict_get d "areas" with
               | Some v => area_map_ok v
               | None => false
               end).
  { intro d. unfold AreaPrices.validate_model, required_field.
    rewrite validb_vmap.
    destruct (dict_get d "areas") as [v |]; [| reflexivity].
    destruct v; try (apply validb_area_map; discriminate).
    reflexivity. }
  destruct raw as [| b | n | x | s | dt | items | items | bs | y m d | items
                   | items];
    try (destruct (py_dict _) as [kw |]; [| reflexivity];
         destruct (unpacks kw); [apply H | reflexivity]).
  destruct (unpacks items); [apply H | reflexivity].
Qed.

(** A field an hourly entry, an area or the response holds besides the
    declared ones changes nothing, unless its name is the name of the
    constructor's own first parameter. *)
Lemma dict_get_extra (d : list (pyobj * pyobj)) (k v : pyobj) (name : string) :
  is_key name k = false ->
  dict_get ((k, v) :: d) name = dict_get d name.
Proof. intro H. simpl. rewrite H. reflexivity. Qed.

Lemma unpacks_extra (d : list (pyobj * pyobj)) (k v : pyobj) :
  is_str k = true ->
  is_key "__pydantic_self__" k = false ->
  unpacks ((k, v) :: d) = unpacks d.
Proof.
  intros Hk Hself. unfold unpacks.
  rewrite (dict_get_extra d k v _ Hself).
  simpl str_keys. rewrite Hk. reflexivity.
Qed.

Lemma unpacks_self (d : list (pyobj * pyobj)) (v : pyobj) :
  dict_get d "__pydantic_self__" = Some v -> unpacks d = false.
Proof. intro H. unfold unpacks. rewrite H. apply andb_false_r. Qed.

Lemma HourlyPrice_extra_field {R : Runtime} (l : loc)
    (d : list (pyobj * pyobj)) (k v : pyobj) :
  is_str k = true ->
  is_key "__pydantic_self__" k = false ->
  is_key "start" k = false -> is_key "value" k = false ->
  HourlyPrice.validate l (PyDict ((k, v) :: d))
  = HourlyPrice.validate l (PyDict d).
Proof.
  intros Hk Hself Hs Hv. unfold HourlyPrice.validate, model_field.
  rewrite (unpacks_extra d k v Hk Hself).
  unfold HourlyPrice.validate_model, required_field.
  rewrite !dict_get_extra by assumption. reflexivity.
Qed.

Lemma AreaValues_extra_field {R : Runtime} (l : loc)
    (d : list (pyobj * pyobj)) (k v : pyobj) :
  is_str k = true ->
  is_key "__pydantic_self__" k = false ->
  is_key "values" k = false ->
  AreaValues.validate l (PyDict ((k, v) :: d))
  = AreaValues.validate l (PyDict d).
Proof.
  intros Hk Hself Hv. unfold AreaValues.validate, model_field.
  rewrite (unpacks_extra d k v Hk Hself).
  unfold AreaValues.validate_model, required_field.
  rewrite !dict_get_extra by assumption. reflexivity.
Qed.

Lemma AreaPrices_extra_field {R : Runtime}
    (d : list (pyobj * pyobj)) (k v : pyobj) :
  is_str k = true ->
  is_key "__pydantic_self__" k = false ->
  is_key "areas" k = false ->
  AreaPrices.parse_obj (PyDict ((k, v) :: d))
  = AreaPrices.parse_obj (PyDict d).
Proof.
  intros Hk Hself Ha. unfold AreaPrices.parse_obj.
  rewrite (unpacks_extra d k v Hk Hself).
  unfold AreaPrices.validate_model, required_field.
  rewrite !dict_get_extra by assumption. reflexivity.
Qed.

(** An hourly entry whose [start] is absent or does not parse, or whose
    [value] is absent or is no number, is not well formed. *)
Lemma entry_lacking_field {R : Runtime} (d : list (pyobj * pyobj)) :
  (forall v t, dict_get d "start" = Some v -> parse_datetime v <> LOk t)
  \/ (forall v x, dict_get d "value" = Some v -> float_validator v <> LOk x) ->
  hourly_entry_ok (PyDict d) = false.
Proof.
  intro H. unfold hourly_entry_ok, as_kwargs.
  destruct (unpacks d); [| reflexivity].
  unfold field_converts. destruct H as [H | H].
  - destruct (dict_get d "start") as [v |]; [| reflexivity].
    destruct (parse_datetime v) as [t | k | e] eqn:E;
      [destruct (H v t eq_refl E) | |];
      destruct v; try reflexivity; rewrite E; reflexivity.
  - apply andb_false_iff. right.
    destruct (dict_get d "value") as [v |]; [| reflexivity].
    destruct (float_validator v) as [x | k | e] eqn:E;
      [destruct (H v x eq_refl E) | |];
      destruct v; try reflexivity; rewrite E; reflexivity.
Qed.

(** One hourly entry that is not well formed, in any area, makes the
    response ill formed. *)
Lemma bad_entry_bad_response {R : Runtime} (top amap a : list (pyobj * pyobj))
    (k values : pyobj) (es : list pyobj) (e : pyobj) :
  dict_get top "areas" = Some (PyDict amap) ->
  In (k, PyDict a) amap ->
  dict_get a "values" = Some values ->
  sequence_like values = Some es ->
  In e es ->
  hourly_entry_ok e = false ->
  response_ok (PyDict top) = false.
Proof.
  intros Hareas Hin Hvals Hseq Hine Hbad.
  unfold response_ok, as_kwargs.
  destruct (unpacks top); [| reflexivity].
  rewrite Hareas. unfold area_map_ok.
  destruct (forallb _ amap) eqn:E; [| reflexivity].
  rewrite forallb_forall in E. specialize (E _ Hin). simpl in E.
  apply andb_true_iff in E. destruct E as [_ E].
  unfold as_kwargs in E.
  destruct (unpacks a); [| discriminate].
  rewrite Hvals, Hseq in E. rewrite forallb_forall in E.
  rewrite (E e Hine) in Hbad. discriminate.
Qed.

(** C7, as stated, fails: the response that wraps the areas in a field
    [areas] is not keyed by area code at its top level (its one top-level
    entry, ["areas"], holds no list [values]), and yet it parses and one
    record is produced. *)
Lemma C7_wrapped_response_accepted :
  spec_area_keyed wrapped_response = false
  /\ vmap json_body (@AreaPrices.parse_obj bare_runtime wrapped_response)
     = Valid [sample_record]
  /\ dry_run_batches
       (snd (exec (@collect_data bare_runtime sample_nordpool sample_influx
                     sample_influx_config true)
                  (world_of (Raise (PyExc "FileNotFoundError"))
                            (Return wrapped_response) (Return tt))))
     = [[sample_record]].
Proof. repeat split. Qed.

(** C7, amended: the shape that is checked is the one with the areas
    under a field [areas].  A response parses exactly when it unpacks to
    keyword arguments whose field [areas] is a mapping from area codes to
    areas, each area holding a list [values], each entry of which has a
    parseable timestamp [start] and a numeric [value]: a response with no
    field [areas], and one in which any hourly entry of any area lacks a
    parseable [start] or a numeric [value], does not parse.  For every
    response that does not parse, [collect_data] ends with an exception
    right after the fetch (the validation error of [AreaPrices] when
    validation collected errors), and no record is shown or written, in
    either mode.  Fields an entry, an area or the response holds besides
    the declared ones are not read and reject nothing, the one field
    named [__pydantic_self__] apart: a response that holds it ends the
    parse with a [TypeError], an area or an entry that holds it is
    reported as a type error at its place. *)
Theorem C7_malformed_response_rejected {R : Runtime} (W : World)
    (nordpool_config : NordpoolConfig.t) (influx : InfluxDBClient.t)
    (influx_config : InfluxDBConfig.t) (dry_run : bool) (raw : pyobj)
    (Hfetch : provider_fetch W (NordpoolConfig.currency nordpool_config) 15
                (NordpoolConfig.areas nordpool_config) = Return raw)
    (Hmalformed : response_ok raw = false) :
  (forall raw', validb (AreaPrices.parse_obj raw') = response_ok raw')
  /\ (forall top amap a k values es e,
        dict_get top "areas" = Some (PyDict amap) ->
        In (k, PyDict a) amap ->
        dict_get a "values" = Some values ->
        sequence_like values = Some es ->
        In e es ->
        hourly_entry_ok e = false ->
        response_ok (PyDict top) = false)
  /\ (forall d,
        (forall v t, dict_get d "start" = Some v -> parse_datetime v <> LOk t)
        \/ (forall v x, dict_get d "value" = Some v ->
                        float_validator v <> LOk x) ->
        hourly_entry_ok (PyDict d) = false)
  /\ (forall top, dict_get top "areas" = None ->
                  response_ok (PyDict top) = false)
  /\ (exists e,
        exec (collect_data nordpool_config influx influx_config dry_run) W
        = (Raise e, fetched nordpool_config)
        /\ (forall errs, AreaPrices.parse_obj raw = Invalid errs ->
                         e = ValidationError "AreaPrices" errs))
  /\ dry_run_batches
       (snd (exec (collect_data nordpool_config influx influx_config
                     dry_run) W)) = []
  /\ written_batches
       (snd (exec (collect_data nordpool_config influx influx_config
                     dry_run) W)) = []
  /\ (forall l d k v,
        is_str k = true ->
        is_key "__pydantic_self__" k = false ->
        is_key "start" k = false -> is_key "value" k = false ->
        HourlyPrice.validate l (PyDict ((k, v) :: d))
        = HourlyPrice.validate l (PyDict d))
  /\ (forall l d k v,
        is_str k = true ->
        is_key "__pydantic_self__" k = false ->
        is_key "values" k = false ->
        AreaValues.validate l (PyDict ((k, v) :: d))
        = AreaValues.validate l (PyDict d))
  /\ (forall d k v,
        is_str k = true ->
        is_key "__pydantic_self__" k = false ->
        is_key "areas" k = false ->
        AreaPrices.parse_obj (PyDict ((k, v) :: d))
        = AreaPrices.parse_obj (PyDict d))
  /\ (forall d v,
        dict_get d "__pydantic_self__" = Some v ->
        AreaPrices.parse_obj (PyDict d) = Raised (PyExc "TypeError")
        /\ (forall l, AreaValues.validate l (PyDict d)
                      = Invalid [(l, WrappedTypeError)])
        /\ (forall l, HourlyPrice.validate l (PyDict d)
                      = Invalid [(l, WrappedTypeError)])).
Proof.
  split; [intro raw'; apply validb_parse_obj |].
  split; [intros top amap a k values es e; apply bad_entry_bad_response |].
  split; [intro d; apply entry_lacking_field |].
  split.
  { intros top Hnone. unfold response_ok, as_kwargs.
    destruct (unpacks top); [rewrite Hnone |]; reflexivity. }
  assert (He : exists e,
             of_vres "AreaPrices" (AreaPrices.parse_obj raw) = Raise e
             /\ (forall errs, AreaPrices.parse_obj raw = Invalid errs ->
                              e = ValidationError "AreaPrices" errs)).
  { pose proof (validb_parse_obj raw) as Hv. rewrite Hmalformed in Hv.
    destruct (AreaPrices.parse_obj raw) as [ap | es | e]; [discriminate | |].
    - eexists. split; [reflexivity |]. intros errs [= <-]. reflexivity.
    - exists e. split; [reflexivity |]. intros errs [=]. }
  destruct He as [e [He Hclass]].
  rewrite (collect_data_parse_fails W _ influx influx_config dry_run raw e
             Hfetch He).
  split; [exists e; split; [reflexivity | exact Hclass] |].
  split; [reflexivity |]. split; [reflexivity |].
  split; [| split; [| split]].
  - intros l d k v Hk Hself Hs Hv.
    apply HourlyPrice_extra_field; assumption.
  - intros l d k v Hk Hself Hv. apply AreaValues_extra_field; assumption.
  - intros d k v Hk Hself Ha. apply AreaPrices_extra_field; assumption.
  - intros d v Hself. pose proof (unpacks_self d v Hself) as Hu.
    unfold AreaPrices.parse_obj, AreaValues.validate, HourlyPrice.validate,
      model_field.
    rewrite Hu. repeat split.
Qed.

(** The theorem at the response keyed by area code at its top level. *)
Lemma C7_malformed_response_rejected_witness :
  exists e,
    exec (@collect_data bare_runtime sample_nordpool sample_influx
            sample_influx_config false)
         (world_of (Raise (PyExc "FileNotFoundError"))
                   (Return area_keyed_response) (Return tt))
    = (Raise e, fetched sample_nordpool)
    /\ (forall errs,
          @AreaPrices.parse_obj bare_runtime area_keyed_response
          = Invalid errs ->
          e = ValidationError "AreaPrices" errs).
Proof.
  apply (proj1 (proj2 (proj2 (proj2 (proj2
    (@C7_malformed_response_rejected bare_runtime
       (world_of (Raise (PyExc "FileNotFoundError"))
                 (Return area_keyed_response) (Return tt))
       sample_nordpool sample_influx sample_influx_config false
       area_keyed_response eq_refl eq_refl)))))).
Defined.

(* ================================================================== *)
(** * Further properties *)

(** ** The sign of a converted price *)

Section FloatSignBit.

Lemma shr_1_nonneg (mrs : shr_record) :
  0 <= shr_m mrs -> 0 <= shr_m (shr_1 mrs).
Proof.
  destruct mrs as [m r s]. simpl.
  destruct m as [| p | p]; simpl; intro H; try lia.
  destruct p; simpl; lia.
Qed.

Lemma shr_nonneg (mrs : shr_record) (e n : Z) :
  0 <= shr_m mrs -> 0 <= shr_m (fst (shr mrs e n)).
Proof.
  intro H. unfold shr. destruct n as [| p | p]; simpl; try exact H.
  revert mrs H. induction p as [p IH | p IH |]; intros mrs H; simpl.
  - apply IH, IH, shr_1_nonneg, H.
  - apply IH, IH, H.
  - apply shr_1_nonneg, H.
Qed.

Lemma shr_fexp_nonneg (m e : Z) (l : location) :
  0 <= m -> 0 <= shr_m (fst (shr_fexp prec emax m e l)).
Proof.
  intro H. unfold shr_fexp. apply shr_nonneg.
  destruct l as [| c]; [| destruct c]; simpl; exact H.
Qed.

Lemma round_nearest_even_nonneg (m : Z) (l : location) :
  0 <= m -> 0 <= round_nearest_even m l.
Proof.
  intro H. unfold round_nearest_even.
  destruct l as [| c]; [| destruct c]; try lia.
  destruct (IntDef.Z.even m); lia.
Qed.

(** Rounding a magnitude keeps the sign it is given and yields no NaN. *)
Lemma binary_round_aux_sign (s : bool) (m e : Z) (l : location) :
  0 <= m -> sf_sign (binary_round_aux prec emax s m e l) = Some s.
Proof.
  intro H. unfold binary_round_aux.
  pose proof (shr_fexp_nonneg m e l H) as H1.
  destruct (shr_fexp prec emax m e l) as [mrs e']. simpl in H1.
  pose proof (shr_fexp_nonneg _ e' loc_Exact
                (round_nearest_even_nonneg _ (loc_of_shr_record mrs) H1)) as H2.
  destruct (shr_fexp prec emax _ e' loc_Exact) as [mrs' e'']. simpl in H2.
  destruct (shr_m mrs') as [| p | p]; try reflexivity.
  - destruct (e'' <=? emax - prec); reflexivity.
  - lia.
Qed.

Lemma SF64mul_sign_r (m : positive) (e : Z) (y : spec_float) :
  sf_sign (SF64mul (S754_finite false m e) y) = sf_sign y.
Proof.
  unfold SF64mul. destruct y as [sy | sy | | sy my ey]; simpl; try reflexivity.
  apply binary_round_aux_sign. lia.
Qed.

Lemma SF64mul_sign_l (x : spec_float) (m : positive) (e : Z) :
  sf_sign (SF64mul x (S754_finite false m e)) = sf_sign x.
Proof.
  unfold SF64mul. destruct x as [sx | sx | | sx mx ex]; simpl;
    rewrite ?xorb_false_r; try reflexivity.
  apply binary_round_aux_sign. lia.
Qed.

Lemma SFdiv_core_binary_nonneg (m1 e1 m2 e2 : Z) :
  0 <= m1 -> 0 < m2 ->
  0 <= fst (fst (SFdiv_core_binary prec emax m1 e1 m2 e2)).
Proof.
  intros H1 H2. unfold SFdiv_core_binary.
  match goal with
  | |- context [IntDef.Z.div_eucl ?a m2] => set (m' := a)
  end.
  assert (Hm : 0 <= m').
  { subst m'.
    match goal with |- context [match ?s with _ => _ end] => destruct s end;
      try lia.
    change (0 <= Z.shiftl m1 (Z.pos p)). apply Z.shiftl_nonneg. exact H1. }
  change (IntDef.Z.div_eucl m' m2) with (Z.div_eucl m' m2).
  pose proof (Z.div_pos m' m2 Hm H2) as Hq. unfold Z.div in Hq.
  destruct (Z.div_eucl m' m2) as [q r]. simpl. exact Hq.
Qed.

Lemma SF64div_sign_l (x : spec_float) (m : positive) (e : Z) :
  sf_sign (SF64div x (S754_finite false m e)) = sf_sign x.
Proof.
  unfold SF64div. destruct x as [sx | sx | | sx mx ex]; simpl;
    rewrite ?xorb_false_r; try reflexivity.
  pose proof (SFdiv_core_binary_nonneg (Z.pos mx) ex (Z.pos m) e
                ltac:(lia) ltac:(lia)) as H.
  destruct (SFdiv_core_binary prec emax (Z.pos mx) ex (Z.pos m) e)
    as [[mz ez] lz]. simpl in H.
  apply binary_round_aux_sign. exact H.
Qed.

End FloatSignBit.

Lemma sf_sign_nan (x : spec_float) : sf_sign x = None <-> x = S754_nan.
Proof. destruct x; simpl; split; intro H; try discriminate H; reflexivity. Qed.

(** X1: the conversion never changes the sign of a price and never makes
    a NaN of a number: the result carries the price's sign bit (where a
    NaN has none), so it is a NaN exactly when the price is, and a
    negative price gives a negative result or -0.0; the positive
    infinity is converted to itself and so is the negative one. *)
Theorem X1_convert_price_keeps_sign (price : float) :
  float_sign (_convert_price_to_cents_with_vat24 price) = float_sign price
  /\ (Prim2SF (_convert_price_to_cents_with_vat24 price) = S754_nan
      <-> Prim2SF price = S754_nan)
  /\ _convert_price_to_cents_with_vat24 infinity = infinity
  /\ _convert_price_to_cents_with_vat24 neg_infinity = neg_infinity.
Proof.
  assert (Hsign : float_sign (_convert_price_to_cents_with_vat24 price)
                  = float_sign price).
  { unfold float_sign, _convert_price_to_cents_with_vat24.
    rewrite div_spec, mul_spec, mul_spec.
    change (Prim2SF 1000) with (S754_finite false 8796093022208000 (-43)).
    rewrite SF64div_sign_l.
    change (Prim2SF 100) with (S754_finite false 7036874417766400 (-46)).
    rewrite SF64mul_sign_l.
    change (Prim2SF 1.24) with (S754_finite false 5584463537939415 (-52)).
    apply SF64mul_sign_r. }
  split; [exact Hsign |].
  split; [| split; reflexivity].
  unfold float_sign in Hsign.
  rewrite <- !sf_sign_nan, Hsign. reflexivity.
Qed.

(** ** What a run of [collect_data] does, in order *)

(** X2: every execution of [collect_data] opens exactly one session and
    makes exactly one query, on that session, for the configured
    currency and areas at resolution 15, before anything is logged or
    written; the session is closed at the end exactly when
    [collect_data] returns, and the close is then the last thing done. *)
Theorem X2_one_session_one_query {R : Runtime} (W : World)
    (nordpool_config : NordpoolConfig.t) (influx : InfluxDBClient.t)
    (influx_config : InfluxDBConfig.t) (dry_run : bool) :
  let out :=
    exec (collect_data nordpool_config influx influx_config dry_run) W in
  (exists rest,
     snd out
     = EvSessionOpen 0
       :: EvFetch 0 (NordpoolConfig.currency nordpool_config) 15
                    (NordpoolConfig.areas nordpool_config)
       :: rest
     /\ filter is_session_open rest = []
     /\ filter is_fetch rest = [])
  /\ open_sessions (snd out) = (if raises (fst out) then [0%nat] else [])
  /\ (raises (fst out) = false ->
      exists before, snd out = before ++ [EvSessionClose 0]).
Proof.
  cbv zeta. collect_data_cases; unfold fetched; simpl;
    (split;
     [eexists; split; [reflexivity | split; reflexivity]
     | split; [reflexivity |]]);
    intro H; try discriminate H;
    match goal with
    | |- exists before, [?a; ?b; ?c; ?d; ?e] = _ => exists [a; b; c; d]
    end; reflexivity.
Qed.

(** ** What [run] hands on *)

(** X3: in a run whose configuration was loaded and constructed, the
    query carries the currency and the areas of the section [nordpool]
    at resolution 15, and the write goes to the client built from the
    host, port and database of the section [influxdb], under that
    section's retention policy; with [dry_run] set nothing is written. *)
Theorem X3_run_uses_configuration {R : Runtime} (W : World)
    (args : AppArgs.t) (tree : pyobj) (c : CheckerConfig.t)
    (Hload : load_config W (AppArgs.config_file args) = Return tree)
    (Hconfig : CheckerConfig_new tree = Return c) :
  Forall (event_of_config c) (snd (exec (run args) W))
  /\ List.length (filter is_fetch (snd (exec (run args) W))) = 1%nat
  /\ (AppArgs.dry_run args = true ->
      filter is_write (snd (exec (run args) W)) = []).
Proof.
  rewrite (run_collects W args tree c Hload Hconfig).
  destruct args as [config_file dry_run]. simpl AppArgs.dry_run.
  collect_data_cases; unfold fetched; simpl;
    (split; [repeat constructor |]);
    (split; [reflexivity |]); intro H; try discriminate H; reflexivity.
Qed.

(** The theorem at a run that writes one record. *)
Lemma X3_run_uses_configuration_witness :
  Forall
    (event_of_config
       (CheckerConfig.mk (InfluxDBConfig.mk "localhost" 8087 "prices" None)
                         (NordpoolConfig.mk [] "EUR")))
    (snd (exec (@run bare_runtime (sample_args false))
               (world_of
                  (Return (config_tree (PyInt 8087) (PyStr "prices")
                                       (PyList [])))
                  (Return wrapped_response) (Return tt)))).
Proof.
  apply (proj1
    (@X3_run_uses_configuration bare_runtime
       (world_of
          (Return (config_tree (PyInt 8087) (PyStr "prices") (PyList [])))
          (Return wrapped_response) (Return tt))
       (sample_args false)
       (config_tree (PyInt 8087) (PyStr "prices") (PyList []))
       (CheckerConfig.mk (InfluxDBConfig.mk "localhost" 8087 "prices" None)
                         (NordpoolConfig.mk [] "EUR"))
       eq_refl eq_refl)).
Defined.

(** X4: when what was loaded from the configuration file is no mapping
    with string keys (an empty file loads as [None]), [run] ends with a
    [TypeError], which is no validation error, before it opens a session
    or calls the network; and when the file cannot be loaded at all,
    [run] ends with the loader's exception, again with nothing done. *)
Theorem X4_configuration_not_a_mapping {R : Runtime} (W : World)
    (args : AppArgs.t) (tree : pyobj)
    (Hload : load_config W (AppArgs.config_file args) = Return tree)
    (Hshape : unpackable tree = false) :
  exec (run args) W = (Raise (PyExc "TypeError"), [])
  /\ (forall (W' : World) (e : exn),
        load_config W' (AppArgs.config_file args) = Raise e ->
        exec (run args) W' = (Raise e, [])).
Proof.
  split.
  - apply (run_config_raises W args tree _ Hload).
    unfold CheckerConfig_new.
    destruct tree as [| b | n | x | s | dt | items | items | bs | y m d
                      | items | items];
      try reflexivity.
    simpl in Hshape. unfold unpacks. rewrite Hshape. reflexivity.
  - intros W' e He. apply run_load_raises. exact He.
Qed.

(** The theorem at an empty configuration file. *)
Lemma X4_configuration_not_a_mapping_witness :
  exec (@run bare_runtime (sample_args false))
       (world_of (Return PyNone) (Return wrapped_response) (Return tt))
  = (Raise (PyExc "TypeError"), []).
Proof.
  apply (proj1
    (@X4_configuration_not_a_mapping bare_runtime
       (world_of (Return PyNone) (Return wrapped_response) (Return tt))
       (sample_args false) PyNone eq_refl eq_refl)).
Defined.

(** ** Required fields and the errors reported together *)

Lemma vboth_invalid_head {A B C : Type} (f : A -> B -> C) (ra : vres A)
    (rb : vres B) (x : verror) (ea : list verror) :
  ra = Invalid (x :: ea) -> settled rb ->
  exists ea', vboth f ra rb = Invalid (x :: ea').
Proof.
  intros -> Hb. destruct rb as [b | eb | e]; simpl in *.
  - exists ea. reflexivity.
  - exists (ea ++ eb). reflexivity.
  - contradiction.
Qed.

Lemma vboth_invalid_last {A B C : Type} (f : A -> B -> C) (ra : vres A)
    (rb : vres B) (x : verror) (eb : list verror) :
  settled ra -> rb = Invalid (eb ++ [x]) ->
  exists eb', vboth f ra rb = Invalid (eb' ++ [x]).
Proof.
  intros Ha ->. destruct ra as [a | ea | e]; simpl in *.
  - exists eb. reflexivity.
  - exists (ea ++ eb). rewrite app_assoc. reflexivity.
  - contradiction.
Qed.

(** A section [influxdb] without [host]: the missing host is the first
    error of the section. *)
Lemma host_missing_first {R : Runtime} (l : loc) (idict : list (pyobj * pyobj)) :
  dict_get idict "host" = None ->
  exists rest,
    InfluxDBConfig.validate_model l idict
    = Invalid ((l ++ [LocField "host"], MissingError) :: rest).
Proof.
  intro Hhost. unfold InfluxDBConfig.validate_model, vap.
  assert (H0 : vmap (fun h rp p db => InfluxDBConfig.mk h p db rp)
                 (required_field l idict "host"
                    (fun l' v => locate l' (str_validator v)))
               = Invalid [(l ++ [LocField "host"], MissingError)])
    by (unfold required_field; rewrite Hhost; reflexivity).
  assert (Hrp : settled (optional_field l idict "retention_policy"
                           (fun l' v => locate l' (str_validator v))))
    by auto with settled.
  destruct (vboth_invalid_head (fun f a => f a) _ _ _ _ H0 Hrp) as [e1 H1].
  assert (Hp : settled (default_field l idict "port" 8086
                          (fun l' v => locate l' (int_validator v))))
    by auto with settled.
  destruct (vboth_invalid_head (fun f a => f a) _ _ _ _ H1 Hp) as [e2 H2].
  assert (Hdb : settled (default_field l idict "database" "energy"
                           (fun l' v => locate l' (str_validator v))))
    by auto with settled.
  destruct (vboth_invalid_head (fun f a => f a) _ _ _ _ H2 Hdb) as [e3 H3].
  exists e3. exact H3.
Qed.

(** A section [nordpool] without [currency]: the missing currency is the
    last error of the section. *)
Lemma currency_missing_last {R : Runtime} (l : loc)
    (nd : list (pyobj * pyobj)) :
  dict_get nd "currency" = None ->
  exists rest,
    NordpoolConfig.validate_model l nd
    = Invalid (rest ++ [(l ++ [LocField "currency"], MissingError)]).
Proof.
  intro Hcur. unfold NordpoolConfig.validate_model.
  assert (Hc : required_field l nd "currency"
                 (fun l' v => locate l' (str_validator v))
               = Invalid ([] ++ [(l ++ [LocField "currency"], MissingError)]))
    by (unfold required_field; rewrite Hcur; reflexivity).
  assert (Ha : settled (required_field l nd "areas"
                          (list_field
                             (fun l' v => locate l' (str_validator v)))))
    by auto with settled.
  exact (vboth_invalid_last NordpoolConfig.mk _ _ _ _ Ha Hc).
Qed.

(** X5: the two sections, the host and the currency are required: a
    configuration tree that unpacks into the keyword arguments of
    [CheckerConfig] and lacks the section [influxdb], the section
    [nordpool], the field [host] of the first or the field [currency] of
    the second (the section being a mapping that unpacks too) is refused
    with a validation error that reports the missing field under its
    name. *)
Theorem X5_required_fields_reported {R : Runtime} (d : list (pyobj * pyobj))
    (Hkeys : unpacks d = true) :
  (dict_get d "influxdb" = None ->
   exists errs,
     CheckerConfig_new (PyDict d) = Raise (ValidationError "CheckerConfig" errs)
     /\ In ([LocField "influxdb"], MissingError) errs)
  /\ (dict_get d "nordpool" = None ->
      exists errs,
        CheckerConfig_new (PyDict d)
        = Raise (ValidationError "CheckerConfig" errs)
        /\ In ([LocField "nordpool"], MissingError) errs)
  /\ (forall idict,
        dict_get d "influxdb" = Some (PyDict idict) ->
        unpacks idict = true ->
        dict_get idict "host" = None ->
        exists errs,
          CheckerConfig_new (PyDict d)
          = Raise (ValidationError "CheckerConfig" errs)
          /\ In ([LocField "influxdb"; LocField "host"], MissingError) errs)
  /\ (forall nd,
        dict_get d "nordpool" = Some (PyDict nd) ->
        unpacks nd = true ->
        dict_get nd "currency" = None ->
        exists errs,
          CheckerConfig_new (PyDict d)
          = Raise (ValidationError "CheckerConfig" errs)
          /\ In ([LocField "nordpool"; LocField "currency"], MissingError) errs).
Proof.
  split; [| split; [| split]].
  - intro Hnone. unfold CheckerConfig_new. rewrite Hkeys.
    unfold CheckerConfig.validate_model.
    assert (Hl : required_field [] d "influxdb" InfluxDBConfig.validate
                 = Invalid [([LocField "influxdb"], MissingError)])
      by (unfold required_field; rewrite Hnone; reflexivity).
    assert (Hr : settled (required_field [] d "nordpool"
                            NordpoolConfig.validate)) by auto with settled.
    destruct (vboth_invalid_l CheckerConfig.mk _ _ _ Hl Hr) as [errs [He Hi]].
    exists errs. rewrite He. split; [reflexivity |].
    apply Hi. left. reflexivity.
  - intro Hnone. unfold CheckerConfig_new. rewrite Hkeys.
    unfold CheckerConfig.validate_model.
    assert (Hr : required_field [] d "nordpool" NordpoolConfig.validate
                 = Invalid [([LocField "nordpool"], MissingError)])
      by (unfold required_field; rewrite Hnone; reflexivity).
    assert (Hl : settled (required_field [] d "influxdb"
                            InfluxDBConfig.validate)) by auto with settled.
    destruct (vboth_invalid_r CheckerConfig.mk _ _ _ Hl Hr) as [errs [He Hi]].
    exists errs. rewrite He. split; [reflexivity |].
    apply Hi. left. reflexivity.
  - intros idict Hi Hik Hhost.
    destruct (host_missing_first [LocField "influxdb"] idict Hhost)
      as [rest Hrest].
    destruct (influxdb_errors_raised d idict _ Hkeys Hi Hik Hrest)
      as [errs [He Hincl]].
    exists errs. split; [exact He |]. apply Hincl. left. reflexivity.
  - intros nd Hn Hnk Hcur.
    destruct (currency_missing_last [LocField "nordpool"] nd Hcur)
      as [rest Hrest].
    destruct (nordpool_errors_raised d nd _ Hkeys Hn Hnk Hrest)
      as [errs [He Hincl]].
    exists errs. split; [exact He |].
    apply Hincl, in_or_app. right. left. reflexivity.
Qed.

(** The theorem at the empty mapping, where both sections are reported,
    and at a mapping whose two sections are empty, where the host and
    the currency are. *)
Lemma X5_required_fields_reported_witness :
  (exists errs,
     @CheckerConfig_new bare_runtime (PyDict [])
     = Raise (ValidationError "CheckerConfig" errs)
     /\ In ([LocField "influxdb"], MissingError) errs)
  /\ (exists errs,
        @CheckerConfig_new bare_runtime (PyDict [])
        = Raise (ValidationError "CheckerConfig" errs)
        /\ In ([LocField "nordpool"], MissingError) errs)
  /\ (exists errs,
        @CheckerConfig_new bare_runtime
          (PyDict [(PyStr "influxdb", PyDict []); (PyStr "nordpool", PyDict [])])
        = Raise (ValidationError "CheckerConfig" errs)
        /\ In ([LocField "influxdb"; LocField "host"], MissingError) errs)
  /\ (exists errs,
        @CheckerConfig_new bare_runtime
          (PyDict [(PyStr "influxdb", PyDict []); (PyStr "nordpool", PyDict [])])
        = Raise (ValidationError "CheckerConfig" errs)
        /\ In ([LocField "nordpool"; LocField "currency"], MissingError) errs).
Proof.
  split; [| split; [| split]].
  - apply (proj1 (@X5_required_fields_reported bare_runtime [] eq_refl)).
    reflexivity.
  - apply (proj1 (proj2
             (@X5_required_fields_reported bare_runtime [] eq_refl))).
    reflexivity.
  - apply (proj1 (proj2 (proj2
             (@X5_required_fields_reported bare_runtime
                [(PyStr "influxdb", PyDict []); (PyStr "nordpool", PyDict [])]
                eq_refl)))
             [] eq_refl eq_refl eq_refl).
  - apply (proj2 (proj2 (proj2
             (@X5_required_fields_reported bare_runtime
                [(PyStr "influxdb", PyDict []); (PyStr "nordpool", PyDict [])]
                eq_refl)))
             [] eq_refl eq_refl eq_refl).
Defined.

(** X6: a configuration that lacks both the host of the section
    [influxdb] and the currency of the section [nordpool] is refused
    with one validation error that reports the missing host first and
    the missing currency last, whatever else is wrong with the two
    sections: construction does not stop at the first error, and the
    errors of [influxdb] come before those of [nordpool]. *)
Theorem X6_errors_of_both_sections {R : Runtime}
    (d idict nd : list (pyobj * pyobj))
    (Hkeys : unpacks d = true)
    (Hinflux : dict_get d "influxdb" = Some (PyDict idict))
    (Hikeys : unpacks idict = true)
    (Hnordpool : dict_get d "nordpool" = Some (PyDict nd))
    (Hnkeys : unpacks nd = true)
    (Hhost : dict_get idict "host" = None)
    (Hcurrency : dict_get nd "currency" = None) :
  exists between,
    CheckerConfig_new (PyDict d)
    = Raise (ValidationError "CheckerConfig"
               (([LocField "influxdb"; LocField "host"], MissingError)
                :: between
                ++ [([LocField "nordpool"; LocField "currency"],
                     MissingError)])).
Proof.
  destruct (host_missing_first [LocField "influxdb"] idict Hhost)
    as [ri Hi].
  destruct (currency_missing_last [LocField "nordpool"] nd Hcurrency)
    as [rn Hn].
  exists (ri ++ rn).
  unfold CheckerConfig_new. rewrite Hkeys.
  unfold CheckerConfig.validate_model, required_field.
  rewrite Hinflux, Hnordpool.
  unfold InfluxDBConfig.validate, NordpoolConfig.validate, model_field.
  rewrite Hikeys, Hnkeys. unfold at_field. simpl app.
  simpl app in Hi, Hn. rewrite Hi, Hn. simpl.
  rewrite <- app_assoc. reflexivity.
Qed.

(** The theorem at a configuration whose port is no integer and whose
    areas are no list either: four errors, the host first and the
    currency last. *)
Lemma X6_errors_of_both_sections_witness :
  exists between,
    @CheckerConfig_new bare_runtime
      (PyDict [(PyStr "influxdb", PyDict [(PyStr "port", PyList [])]);
               (PyStr "nordpool", PyDict [(PyStr "areas", PyStr "SE1")])])
    = Raise (ValidationError "CheckerConfig"
               (([LocField "influxdb"; LocField "host"], MissingError)
                :: between
                ++ [([LocField "nordpool"; LocField "currency"],
                     MissingError)])).
Proof.
  apply (@X6_errors_of_both_sections bare_runtime
           [(PyStr "influxdb", PyDict [(PyStr "port", PyList [])]);
            (PyStr "nordpool", PyDict [(PyStr "areas", PyStr "SE1")])]
           [(PyStr "port", PyList [])]
           [(PyStr "areas", PyStr "SE1")]
           eq_refl eq_refl eq_refl eq_refl eq_refl eq_refl eq_refl).
Defined.

(** ** The areas of a parsed response *)

Lemma dict_set_keys_in {A : Type} (d : list (string * A)) (k : string) (v : A)
    (k' : string) :
  In k' (map fst (dict_set d k v)) -> In k' (map fst d) \/ k' = k.
Proof.
  induction d as [| [k0 v0] rest IH]; simpl.
  - intros [<- | []]. right. reflexivity.
  - destruct (String.eqb k0 k); simpl.
    + intros [<- | H]; [left; left; reflexivity | left; right; exact H].
    + intros [<- | H]; [left; left; reflexivity |].
      destruct (IH H) as [H' | H']; [left; right; exact H' | right; exact H'].
Qed.

Lemma dict_set_NoDup {A : Type} (d : list (string * A)) (k : string) (v : A) :
  NoDup (map fst d) -> NoDup (map fst (dict_set d k v)).
Proof.
  induction d as [| [k0 v0] rest IH]; simpl; intro H.
  - constructor; [intros [] | constructor].
  - inversion H as [| x xs Hnotin Hrest]; subst.
    destruct (String.eqb k0 k) eqn:E; simpl.
    + constructor; assumption.
    + constructor; [| apply IH; exact Hrest].
      intro Hin. destruct (dict_set_keys_in rest k v k0 Hin) as [H' | H'].
      * exact (Hnotin H').
      * subst k0. rewrite String.eqb_refl in E. discriminate.
Qed.

Lemma fold_dict_set_NoDup {A : Type} (l acc : list (string * A)) :
  NoDup (map fst acc) ->
  NoDup (map fst (fold_left (fun acc kv => dict_set acc (fst kv) (snd kv))
                            l acc)).
Proof.
  revert acc. induction l as [| [k v] rest IH]; intros acc H; simpl.
  - exact H.
  - apply IH, dict_set_NoDup, H.
Qed.

Lemma dict_of_pairs_NoDup {A : Type} (l : list (string * A)) :
  NoDup (map fst (dict_of_pairs l)).
Proof. apply fold_dict_set_NoDup. constructor. Qed.

(** The areas of a parsed response were collected into a dict. *)
Lemma parse_obj_areas {R : Runtime} (raw : pyobj) (ap : AreaPrices.t) :
  AreaPrices.parse_obj raw = Valid ap ->
  exists entries, AreaPrices.areas ap = dict_of_pairs entries.
Proof.
  assert (Hmap : forall l v m,
             mapping_field AreaValues.validate l v = Valid m ->
             exists entries, m = dict_of_pairs entries).
  { intros l v m. unfold mapping_field.
    destruct v as [| b | n | x | s | dt | items | items | bs | y mo d
                   | items | items];
      try (destruct (py_dict _) as [kw |]; [| discriminate];
           destruct (validate_entries AreaValues.validate l kw);
           simpl; try discriminate; intros [= <-]; eexists; reflexivity).
    destruct (validate_entries AreaValues.validate l items);
      simpl; try discriminate; intros [= <-]; eexists; reflexivity. }
  assert (Hmodel : forall d,
             AreaPrices.validate_model [] d = Valid ap ->
             exists entries, AreaPrices.areas ap = dict_of_pairs entries).
  { intro d. unfold AreaPrices.validate_model, required_field.
    destruct (dict_get d "areas") as [v |]; [| discriminate].
    destruct v;
      try discriminate;
      match goal with
      | |- vmap _ ?r = _ -> _ => destruct r as [m | es | e] eqn:E
      end; simpl; try discriminate; intros [= <-]; simpl;
      eapply Hmap; exact E. }
  unfold AreaPrices.parse_obj.
  destruct raw as [| b | n | x | s | dt | items | items | bs | y mo d
                   | items | items];
    try (destruct (py_dict _) as [kw |]; [| discriminate];
         destruct (unpacks kw); [apply Hmodel | discriminate]).
  destruct (unpacks items); [apply Hmodel | discriminate].
Qed.

(** X7: whatever the response, the area codes of a parsed response are
    pairwise distinct: an area code that comes twice (after conversion
    of the keys to strings) is kept once. *)
Theorem X7_area_codes_distinct {R : Runtime} (raw : pyobj) (ap : AreaPrices.t)
    (Hparse : AreaPrices.parse_obj raw = Valid ap) :
  NoDup (map fst (AreaPrices.areas ap)).
Proof.
  destruct (parse_obj_areas raw ap Hparse) as [entries ->].
  apply dict_of_pairs_NoDup.
Qed.

(** The theorem at a response of four keys, two of which convert to
    the same area code: three areas are left, the repeated one at the
    place of its first key and with the prices of its last. *)
Lemma X7_area_codes_distinct_witness :
  NoDup (map fst
           (AreaPrices.areas
              (AreaPrices.mk
                 [("SE1", AreaValues.mk []);
                  ("True",
                   AreaValues.mk [HourlyPrice.mk (hour_of_day 0) 10]);
                  ("FI", AreaValues.mk [])]))).
Proof.
  apply (@X7_area_codes_distinct bare_runtime repeated_code_response _
           eq_refl).
Defined.

(** ** The records of one area *)

Lemma has_area_record_for (area area' : string) (data : HourlyPrice.t) :
  has_area area (record_for area' data) = String.eqb area' area.
Proof. reflexivity. Qed.

Lemma filter_records_of (area area' : string) (l : list HourlyPrice.t) :
  filter (has_area area) (map (record_for area') l)
  = if String.eqb area' area then map (record_for area') l else [].
Proof.
  induction l as [| data rest IH]; simpl.
  - destruct (String.eqb area' area); reflexivity.
  - rewrite has_area_record_for, IH.
    destruct (String.eqb area' area); reflexivity.
Qed.

Lemma filter_json_body_absent (area : string)
    (areas : list (string * AreaValues.t)) :
  ~ In area (map fst areas) ->
  filter (has_area area) (json_body (AreaPrices.mk areas)) = [].
Proof.
  induction areas as [| [a pd] rest IH]; intro H.
  - reflexivity.
  - rewrite json_body_cons, filter_app.
    rewrite filter_records_of.
    destruct (String.eqb a area) eqn:E.
    + apply String.eqb_eq in E. subst a. destruct H. left. reflexivity.
    + simpl. apply IH. intro Hin. apply H. right. exact Hin.
Qed.

Lemma filter_json_body_area (area : string) (price_data : AreaValues.t)
    (areas : list (string * AreaValues.t)) :
  NoDup (map fst areas) ->
  In (area, price_data) areas ->
  filter (has_area area) (json_body (AreaPrices.mk areas))
  = map (record_for area) (AreaValues.values price_data).
Proof.
  induction areas as [| [a pd] rest IH]; intros Hnd Hin.
  - destruct Hin.
  - simpl in Hnd. inversion Hnd as [| x xs Hnotin Hrest]; subst.
    rewrite json_body_cons, filter_app, filter_records_of.
    destruct Hin as [Heq | Hin].
    + injection Heq as -> ->. rewrite String.eqb_refl.
      rewrite (filter_json_body_absent area rest Hnotin).
      apply app_nil_r.
    + destruct (String.eqb a area) eqn:E.
      * apply String.eqb_eq in E. subst a. destruct Hnotin.
        apply in_map_iff. exists (area, price_data). split; [reflexivity | exact Hin].
      * simpl. apply IH; assumption.
Qed.

(** X8: in the batch built from a parsed response, the records that
    carry the tag of one area are exactly the records of that area's
    hourly prices, in the order of the area's list [values]: no record
    of another area carries the tag, none is dropped, none is repeated. *)
Theorem X8_records_of_one_area {R : Runtime} (raw : pyobj) (ap : AreaPrices.t)
    (area : string) (price_data : AreaValues.t)
    (Hparse : AreaPrices.parse_obj raw = Valid ap)
    (Harea : In (area, price_data) (AreaPrices.areas ap)) :
  filter (has_area area) (json_body ap)
  = map (record_for area) (AreaValues.values price_data).
Proof.
  destruct (parse_obj_areas raw ap Hparse) as [entries Hentries].
  destruct ap as [areas]. simpl in *. subst areas.
  apply filter_json_body_area; [apply dict_of_pairs_NoDup | exact Harea].
Qed.

(** The theorem at the second of two areas with two prices each. *)
Lemma X8_records_of_one_area_witness :
  filter (has_area "FI") (json_body two_area_prices)
  = map (record_for "FI")
        [HourlyPrice.mk (hour_of_day 0) 30; HourlyPrice.mk (hour_of_day 1) 40].
Proof.
  apply (@X8_records_of_one_area bare_runtime two_area_response
           two_area_prices "FI"
           (AreaValues.mk [HourlyPrice.mk (hour_of_day 0) 30;
                           HourlyPrice.mk (hour_of_day 1) 40])
           eq_refl (or_intror (or_introl eq_refl))).
Defined.

(** ** Responses of native values *)

Lemma validate_hourly_prices {R : Runtime} (l : loc)
    (prices : list HourlyPrice.t) (i : nat) :
  validate_items HourlyPrice.validate l i (map obj_of_hourly_price prices)
  = Valid prices.
Proof.
  revert i. induction prices as [| [start value] rest IH]; intro i.
  - reflexivity.
  - cbn [map validate_items]. rewrite IH. reflexivity.
Qed.

Lemma validate_area_values {R : Runtime} (l : loc) (price_data : AreaValues.t) :
  AreaValues.validate l (obj_of_area_values price_data) = Valid price_data.
Proof.
  destruct price_data as [prices].
  unfold AreaValues.validate, model_field, obj_of_area_values.
  unpack_known.
  unfold AreaValues.validate_model, required_field.
  simpl dict_get. cbv iota. unfold list_field, sequence_like.
  simpl AreaValues.values.
  rewrite validate_hourly_prices. reflexivity.
Qed.

Lemma validate_area_entries {R : Runtime} (l : loc)
    (areas : list (string * AreaValues.t)) :
  validate_entries AreaValues.validate l
    (map (fun item : string * AreaValues.t =>
            (PyStr (fst item), obj_of_area_values (snd item))) areas)
  = Valid areas.
Proof.
  induction areas as [| [area price_data] rest IH].
  - reflexivity.
  - cbn [map validate_entries fst snd].
    unfold obj_of_area_values at 1. rewrite not_none_dict.
    change (PyDict
              [(PyStr "values",
                PyList (map obj_of_hourly_price
                          (AreaValues.values price_data)))])
      with (obj_of_area_values price_data).
    rewrite IH, validate_area_values.
    reflexivity.
Qed.

Lemma dict_set_fresh {A : Type} (d : list (string * A)) (k : string) (v : A) :
  ~ In k (map fst d) -> dict_set d k v = d ++ [(k, v)].
Proof.
  induction d as [| [k0 v0] rest IH]; simpl; intro H.
  - reflexivity.
  - destruct (String.eqb k0 k) eqn:E.
    + apply String.eqb_eq in E. destruct H. left. exact E.
    + rewrite IH; [reflexivity |]. intro Hin. apply H. right. exact Hin.
Qed.

Lemma fold_dict_set_distinct {A : Type} (l acc : list (string * A)) :
  NoDup (map fst (acc ++ l)) ->
  fold_left (fun acc kv => dict_set acc (fst kv) (snd kv)) l acc = acc ++ l.
Proof.
  revert acc. induction l as [| [k v] rest IH]; intros acc H; simpl.
  - symmetry. apply app_nil_r.
  - rewrite dict_set_fresh.
    + rewrite IH; rewrite <- app_assoc; [reflexivity | exact H].
    + rewrite map_app in H. simpl in H.
      apply NoDup_remove_2 in H. intro Hin. apply H.
      apply in_or_app. left. exact Hin.
Qed.

Lemma dict_of_pairs_distinct {A : Type} (l : list (string * A)) :
  NoDup (map fst l) -> dict_of_pairs l = l.
Proof. intro H. apply (fold_dict_set_distinct l []). exact H. Qed.

(** X9: a response that holds datetime objects and floats under the
    declared field names, with pairwise distinct area codes, parses to
    exactly those values: validation alters no timestamp and no price
    and keeps the areas and the prices in their order; the batch of the
    run is then built from exactly them. *)
Theorem X9_native_response_parses_to_itself {R : Runtime}
    (ap : AreaPrices.t)
    (Hdistinct : NoDup (map fst (AreaPrices.areas ap))) :
  AreaPrices.parse_obj (obj_of_area_prices ap) = Valid ap
  /\ (forall (W : World) nordpool_config influx influx_config,
        provider_fetch W (NordpoolConfig.currency nordpool_config) 15
          (NordpoolConfig.areas nordpool_config)
        = Return (obj_of_area_prices ap) ->
        written_batches
          (snd (exec (collect_data nordpool_config influx influx_config false)
                     W))
        = [json_body ap]).
Proof.
  assert (Hparse : AreaPrices.parse_obj (obj_of_area_prices ap) = Valid ap).
  { destruct ap as [areas]. simpl in Hdistinct.
    unfold AreaPrices.parse_obj, obj_of_area_prices.
    unpack_known.
    unfold AreaPrices.validate_model, required_field.
    simpl dict_get. cbv iota. unfold mapping_field. simpl AreaPrices.areas.
    rewrite validate_area_entries. simpl vmap.
    rewrite (dict_of_pairs_distinct areas Hdistinct). reflexivity. }
  split; [exact Hparse |].
  intros W nordpool_config influx influx_config Hfetch.
  rewrite (collect_data_write W nordpool_config influx influx_config
             _ ap Hfetch Hparse).
  destruct (influx_write_points W influx _ _); reflexivity.
Qed.

(** The theorem at two areas, one of them without prices. *)
Lemma X9_native_response_parses_to_itself_witness :
  @AreaPrices.parse_obj bare_runtime
    (obj_of_area_prices
       (AreaPrices.mk
          [("FI",
            AreaValues.mk
              [HourlyPrice.mk (Datetime.mk 2024 1 1 0 0 0 0 (Some 0)) 10;
               HourlyPrice.mk (Datetime.mk 2024 1 1 0 15 0 0 (Some 0)) (-5)]);
           ("SE1", AreaValues.mk [])]))
  = Valid
      (AreaPrices.mk
         [("FI",
           AreaValues.mk
             [HourlyPrice.mk (Datetime.mk 2024 1 1 0 0 0 0 (Some 0)) 10;
              HourlyPrice.mk (Datetime.mk 2024 1 1 0 15 0 0 (Some 0)) (-5)]);
          ("SE1", AreaValues.mk [])]).
Proof.
  apply (proj1
    (@X9_native_response_parses_to_itself bare_runtime
       (AreaPrices.mk
          [("FI",
            AreaValues.mk
              [HourlyPrice.mk (Datetime.mk 2024 1 1 0 0 0 0 (Some 0)) 10;
               HourlyPrice.mk (Datetime.mk 2024 1 1 0 15 0 0 (Some 0)) (-5)]);
           ("SE1", AreaValues.mk [])])
       ltac:(repeat constructor; simpl; intuition discriminate))).
Defined.

(** ** Configurations of native values *)

Lemma validate_str_items {R : Runtime} (l : loc) (xs : list string) (i : nat) :
  validate_items (fun l' v => locate l' (str_validator v)) l i (map PyStr xs)
  = Valid xs.
Proof.
  revert i. induction xs as [| x rest IH]; intro i.
  - reflexivity.
  - cbn [map validate_items]. rewrite IH. reflexivity.
Qed.

(** X10: a configuration tree that spells out a configuration with
    values of the annotated types (strings, an integer port, a list of
    strings, the retention policy a string or [None]) is constructed
    into exactly that configuration, whatever the values: no field is
    altered, defaulted or refused. *)
Theorem X10_native_configuration_read_back {R : Runtime} (c : CheckerConfig.t) :
  CheckerConfig_new (tree_of_config c) = Return c.
Proof.
  destruct c as [[host port database retention_policy] [areas currency]].
  unfold CheckerConfig_new, tree_of_config. unpack_known.
  unfold CheckerConfig.validate_model, required_field. simpl dict_get.
  cbv iota.
  unfold NordpoolConfig.validate, InfluxDBConfig.validate, model_field.
  unpack_known.
  unfold NordpoolConfig.validate_model, required_field. simpl dict_get.
  cbv iota. unfold list_field, sequence_like. rewrite validate_str_items.
  destruct retention_policy as [rp |]; reflexivity.
Qed.

(** ** Areas that were not asked for *)

(** X11: every hourly price of every area of the parsed response is in
    the one batch of the run, in both modes, whether or not the area is
    among the areas the configuration asked for: [collect_data] does not
    filter the response by [nordpool_config.areas]. *)
Theorem X11_response_not_filtered {R : Runtime} (W : World)
    (nordpool_config : NordpoolConfig.t) (influx : InfluxDBClient.t)
    (influx_config : InfluxDBConfig.t) (data : pyobj) (ap : AreaPrices.t)
    (area : string) (price_data : AreaValues.t) (price : HourlyPrice.t)
    (Hfetch : provider_fetch W (NordpoolConfig.currency nordpool_config) 15
                (NordpoolConfig.areas nordpool_config) = Return data)
    (Hparse : AreaPrices.parse_obj data = Valid ap)
    (Harea : In (area, price_data) (AreaPrices.areas ap))
    (Hprice : In price (AreaValues.values price_data)) :
  (exists batch,
     written_batches
       (snd (exec (collect_data nordpool_config influx influx_config false) W))
     = [batch]
     /\ In (record_for area price) batch)
  /\ (exists batch,
        dry_run_batches
          (snd (exec (collect_data nordpool_config influx influx_config true)
                     W))
        = [batch]
        /\ In (record_for area price) batch).
Proof.
  assert (Hin : In (record_for area price) (json_body ap)).
  { apply json_body_in. exists area, price_data, price. auto. }
  split; exists (json_body ap); (split; [| exact Hin]).
  - rewrite (collect_data_write W nordpool_config influx influx_config
               data ap Hfetch Hparse).
    destruct (influx_write_points W influx _ _); reflexivity.
  - rewrite (collect_data_dry_run W nordpool_config influx influx_config
               data ap Hfetch Hparse).
    reflexivity.
Qed.

(** The theorem at a run that asks for SE1 and is answered with FI. *)
Lemma X11_response_not_filtered_witness :
  exists batch,
    written_batches
      (snd (exec (@collect_data bare_runtime sample_nordpool sample_influx
                    sample_influx_config false)
                 (world_of (Raise (PyExc "FileNotFoundError"))
                    (Return
                       (obj_of_area_prices
                          (AreaPrices.mk
                             [("FI",
                               AreaValues.mk
                                 [HourlyPrice.mk
                                    (Datetime.mk 2024 1 1 0 0 0 0 (Some 0))
                                    10])])))
                    (Return tt))))
    = [batch]
    /\ In (record_for "FI"
             (HourlyPrice.mk (Datetime.mk 2024 1 1 0 0 0 0 (Some 0)) 10))
          batch.
Proof.
  apply (proj1
    (@X11_response_not_filtered bare_runtime
       (world_of (Raise (PyExc "FileNotFoundError"))
          (Return
             (obj_of_area_prices
                (AreaPrices.mk
                   [("FI",
                     AreaValues.mk
                       [HourlyPrice.mk
                          (Datetime.mk 2024 1 1 0 0 0 0 (Some 0)) 10])])))
          (Return tt))
       sample_nordpool sample_influx sample_influx_config
       _
       (AreaPrices.mk
          [("FI",
            AreaValues.mk
              [HourlyPrice.mk (Datetime.mk 2024 1 1 0 0 0 0 (Some 0)) 10])])
       "FI"
       (AreaValues.mk
          [HourlyPrice.mk (Datetime.mk 2024 1 1 0 0 0 0 (Some 0)) 10])
       (HourlyPrice.mk (Datetime.mk 2024 1 1 0 0 0 0 (Some 0)) 10)
       eq_refl eq_refl (or_introl eq_refl) (or_introl eq_refl))).
Defined.

(** ** Where the errors of an hourly entry are reported *)

Lemma reports_vmap {A B : Type} (f : A -> B) (r : vres A) (ee : list verror) :
  reports r ee -> reports (vmap f r) ee.
Proof. destruct r; simpl; auto. Qed.

Lemma reports_vboth_l {A B C : Type} (f : A -> B -> C) (ra : vres A)
    (rb : vres B) (ee : list verror) :
  reports ra ee -> reports (vboth f ra rb) ee.
Proof.
  destruct ra as [a | ea | e], rb as [b | eb | e']; simpl; intro H;
    try contradiction; try exact I; try exact H.
  apply incl_appl. exact H.
Qed.

Lemma reports_vboth_r {A B C : Type} (f : A -> B -> C) (ra : vres A)
    (rb : vres B) (ee : list verror) :
  reports rb ee -> reports (vboth f ra rb) ee.
Proof.
  destruct ra as [a | ea | e], rb as [b | eb | e']; simpl; intro H;
    try contradiction; try exact I; try exact H.
  apply incl_appr. exact H.
Qed.

Lemma reports_validate_items {A : Type} (validate : loc -> pyobj -> vres A)
    (l : loc) (items : list pyobj) (ee : list verror) :
  forall (i0 i : nat) (e : pyobj),
    nth_error items i = Some e ->
    reports (not_none validate (l ++ [LocIndex (i0 + i)]) e) ee ->
    reports (validate_items validate l i0 items) ee.
Proof.
  induction items as [| v rest IH]; intros i0 i e Hnth He.
  - destruct i; discriminate.
  - cbn [validate_items]. destruct i as [| i'].
    + injection Hnth as ->. rewrite Nat.add_0_r in He.
      apply reports_vboth_l. exact He.
    + apply reports_vboth_r. apply (IH (S i0) i' e Hnth).
      replace (S i0 + i')%nat with (i0 + S i')%nat by lia. exact He.
Qed.

Lemma reports_validate_entries {R : Runtime} {A : Type}
    (validate : loc -> pyobj -> vres A) (l : loc)
    (entries : list (pyobj * pyobj)) (k v : pyobj) (code : string)
    (ee : list verror) :
  In (k, v) entries ->
  key_validate (l ++ [LocKeyMarker]) k = Valid code ->
  reports (not_none validate (l ++ [LocItem k]) v) ee ->
  reports (validate_entries validate l entries) ee.
Proof.
  induction entries as [| [k0 v0] rest IH]; intros Hin Hk Hv.
  - destruct Hin.
  - cbn [validate_entries]. destruct Hin as [Heq | Hin].
    + injection Heq as -> ->. apply reports_vboth_l.
      rewrite Hk. apply reports_vmap. exact Hv.
    + apply reports_vboth_r. apply IH; assumption.
Qed.

Lemma required_leaf_errors {A : Type} (convert : pyobj -> leafres A)
    (l : loc) (d : list (pyobj * pyobj)) (name : string)
    (es : list verror) :
  required_field l d name (fun l' v => locate l' (convert v)) = Invalid es ->
  exists k, es = [(l ++ [LocField name], k)].
Proof.
  unfold required_field, at_field.
  destruct (dict_get d name) as [v |].
  - destruct v; simpl;
      try (destruct (convert _); simpl; try discriminate);
      intros [= <-]; eexists; reflexivity.
  - intros [= <-]. eexists; reflexivity.
Qed.

(** The errors of an hourly entry lie at its place or below it. *)
Lemma HourlyPrice_errors_under {R : Runtime} (l : loc) (e : pyobj)
    (ee : list verror) :
  not_none HourlyPrice.validate l e = Invalid ee ->
  Forall (fun err : verror => exists suffix, fst err = l ++ suffix) ee.
Proof.
  assert (Hhere : forall k : errkind,
             Forall (fun err : verror => exists suffix, fst err = l ++ suffix)
                    [(l, k)]).
  { intro k. constructor; [| constructor]. exists []. simpl.
    symmetry. apply app_nil_r. }
  assert (Hmodel : forall d,
             HourlyPrice.validate_model l d = Invalid ee ->
             Forall (fun err : verror => exists suffix, fst err = l ++ suffix)
                    ee).
  { intros d H. unfold HourlyPrice.validate_model in H.
    destruct (required_field l d "start" _) as [t | e1 | x1] eqn:E1;
      destruct (required_field l d "value" _) as [x | e2 | x2] eqn:E2;
      simpl in H; try discriminate H; injection H as <-;
      try (destruct (required_leaf_errors _ _ _ _ _ E1) as [k1 ->]);
      try (destruct (required_leaf_errors _ _ _ _ _ E2) as [k2 ->]);
      repeat constructor; eexists; reflexivity. }
  assert (Hfield : HourlyPrice.validate l e = Invalid ee ->
                   Forall (fun err : verror =>
                             exists suffix, fst err = l ++ suffix) ee).
  { unfold HourlyPrice.validate, model_field.
    destruct e as [| b | n | x | s | dt | items | items | bs | y mo d
                   | items | items];
      try (destruct (py_dict _) as [kw |];
           [destruct (unpacks kw); [apply Hmodel |] |];
           intros [= <-]; apply Hhere).
    destruct (unpacks items); [apply Hmodel |].
    intros [= <-]. apply Hhere. }
  destruct e; try exact Hfield.
  simpl. intros [= <-]. apply Hhere.
Qed.

(** X12: when parsing a response ends in a validation error, the errors
    of every faulty hourly entry, whatever the entry is, are among the
    reported ones, each at or below the place of the entry: the field
    [areas], the key of the area, the field [values], the entry's index
    (the area being a mapping that unpacks, under a key that is
    accepted, with a list, tuple or set of values).  So an
    entry that is [None] is reported at [areas.<key>.values.<index>] as
    not allowed, an entry that is a mapping which does not unpack into
    the keyword arguments of [HourlyPrice] is reported there as a type
    error, and an entry without [start] (or [value]) is reported as a
    missing field at [areas.<key>.values.<index>.start] (or [.value]).
    Every faulty entry is reported, not only the first one. *)
Theorem X12_entry_errors_located {R : Runtime}
    (top amap a : list (pyobj * pyobj)) (k values : pyobj) (code : string)
    (es : list pyobj) (i : nat) (e : pyobj) (ee errs : list verror)
    (Hparse : AreaPrices.parse_obj (PyDict top) = Invalid errs)
    (Hareas : dict_get top "areas" = Some (PyDict amap))
    (Harea : In (k, PyDict a) amap)
    (Hcode : key_validate [LocField "areas"; LocKeyMarker] k = Valid code)
    (Hakeys : unpacks a = true)
    (Hvalues : dict_get a "values" = Some values)
    (Hseq : sequence_like values = Some es)
    (Hentry : nth_error es i = Some e)
    (Hee : not_none HourlyPrice.validate
             [LocField "areas"; LocItem k; LocField "values"; LocIndex i] e
           = Invalid ee) :
  incl ee errs
  /\ Forall (fun err : verror =>
               exists suffix,
                 fst err
                 = [LocField "areas"; LocItem k; LocField "values"; LocIndex i]
                   ++ suffix) ee
  /\ (e = PyNone ->
      In ([LocField "areas"; LocItem k; LocField "values"; LocIndex i],
          NoneIsNotAllowedError) errs)
  /\ (forall d,
        e = PyDict d -> unpacks d = false ->
        In ([LocField "areas"; LocItem k; LocField "values"; LocIndex i],
            WrappedTypeError) errs)
  /\ (forall d,
        e = PyDict d -> unpacks d = true -> dict_get d "start" = None ->
        In ([LocField "areas"; LocItem k; LocField "values"; LocIndex i;
             LocField "start"], MissingError) errs)
  /\ (forall d,
        e = PyDict d -> unpacks d = true -> dict_get d "value" = None ->
        In ([LocField "areas"; LocItem k; LocField "values"; LocIndex i;
             LocField "value"], MissingError) errs).
Proof.
  assert (Hincl : incl ee errs).
  { assert (Hrep : reports (AreaPrices.parse_obj (PyDict top)) ee).
    { unfold AreaPrices.parse_obj.
      destruct (unpacks top); [| exact I].
      unfold AreaPrices.validate_model, required_field. rewrite Hareas.
      apply reports_vmap. unfold mapping_field. apply reports_vmap.
      apply (reports_validate_entries AreaValues.validate
               [LocField "areas"] amap k (PyDict a) code ee Harea Hcode).
      rewrite not_none_dict.
      unfold AreaValues.validate, model_field. rewrite Hakeys.
      unfold AreaValues.validate_model, required_field. rewrite Hvalues.
      apply reports_vmap.
      assert (Hlist : reports
                (list_field HourlyPrice.validate
                   (at_field (at_field [] "areas" ++ [LocItem k]) "values")
                   values) ee).
      { unfold list_field. rewrite Hseq.
        apply (reports_validate_items _ _ es ee 0 i e Hentry).
        unfold at_field. simpl app. rewrite Hee. simpl. apply incl_refl. }
      destruct values; try exact Hlist. discriminate Hseq. }
    rewrite Hparse in Hrep. exact Hrep. }
  split; [exact Hincl |].
  split; [exact (HourlyPrice_errors_under _ e ee Hee) |].
  split; [| split; [| split]].
  - intros ->. apply Hincl. simpl in Hee. injection Hee as <-.
    left. reflexivity.
  - intros d -> Hd. apply Hincl.
    rewrite not_none_dict in Hee.
    unfold HourlyPrice.validate, model_field in Hee. rewrite Hd in Hee.
    injection Hee as <-. left. reflexivity.
  - intros d -> Hd Hnone. apply Hincl.
    rewrite not_none_dict in Hee.
    unfold HourlyPrice.validate, model_field in Hee. rewrite Hd in Hee.
    unfold HourlyPrice.validate_model, required_field in Hee.
    rewrite Hnone in Hee.
    match type of Hee with
    | vboth _ _ ?rb = _ => destruct rb as [b | eb | ex]
    end; simpl in Hee; try discriminate; injection Hee as <-;
      left; reflexivity.
  - intros d -> Hd Hnone. apply Hincl.
    rewrite not_none_dict in Hee.
    unfold HourlyPrice.validate, model_field in Hee. rewrite Hd in Hee.
    unfold HourlyPrice.validate_model, required_field in Hee.
    rewrite Hnone in Hee.
    match type of Hee with
    | vboth _ ?ra _ = _ => destruct ra as [b | ea | ex]
    end; simpl in Hee; try discriminate; injection Hee as <-;
      [| apply in_or_app; right]; left; reflexivity.
Qed.

(** The theorem at a response whose second entry of SE1 is [None] and
    whose third has no [start]: both are reported, each at its index. *)
Lemma X12_entry_errors_located_witness :
  @AreaPrices.parse_obj bare_runtime faulty_entries_response
  = Invalid
      [([LocField "areas"; LocItem (PyStr "SE1"); LocField "values";
         LocIndex 1], NoneIsNotAllowedError);
       ([LocField "areas"; LocItem (PyStr "SE1"); LocField "values";
         LocIndex 2; LocField "start"], MissingError)]
  /\ In ([LocField "areas"; LocItem (PyStr "SE1"); LocField "values";
          LocIndex 1], NoneIsNotAllowedError)
        [([LocField "areas"; LocItem (PyStr "SE1"); LocField "values";
           LocIndex 1], NoneIsNotAllowedError);
         ([LocField "areas"; LocItem (PyStr "SE1"); LocField "values";
           LocIndex 2; LocField "start"], MissingError)]
  /\ In ([LocField "areas"; LocItem (PyStr "SE1"); LocField "values";
          LocIndex 2; LocField "start"], MissingError)
        [([LocField "areas"; LocItem (PyStr "SE1"); LocField "values";
           LocIndex 1], NoneIsNotAllowedError);
         ([LocField "areas"; LocItem (PyStr "SE1"); LocField "values";
           LocIndex 2; LocField "start"], MissingError)].
Proof.
  split; [reflexivity |]. split.
  - apply (proj1 (proj2 (proj2
      (@X12_entry_errors_located bare_runtime
         [(PyStr "areas",
           PyDict [(PyStr "SE1",
                    PyDict [(PyStr "values",
                             PyList [sample_entry 10; PyNone;
                                     PyDict [(PyStr "value", PyFloat 1)]])])])]
         [(PyStr "SE1",
           PyDict [(PyStr "values",
                    PyList [sample_entry 10; PyNone;
                            PyDict [(PyStr "value", PyFloat 1)]])])]
         [(PyStr "values",
           PyList [sample_entry 10; PyNone;
                   PyDict [(PyStr "value", PyFloat 1)]])]
         (PyStr "SE1")
         (PyList [sample_entry 10; PyNone;
                  PyDict [(PyStr "value", PyFloat 1)]])
         "SE1"
         [sample_entry 10; PyNone; PyDict [(PyStr "value", PyFloat 1)]]
         1 PyNone
         [([LocField "areas"; LocItem (PyStr "SE1"); LocField "values";
            LocIndex 1], NoneIsNotAllowedError)]
         _
         eq_refl eq_refl (or_introl eq_refl) eq_refl eq_refl eq_refl eq_refl
         eq_refl eq_refl)))).
    reflexivity.
  - apply (proj1 (proj2 (proj2 (proj2 (proj2
      (@X12_entry_errors_located bare_runtime
         [(PyStr "areas",
           PyDict [(PyStr "SE1",
                    PyDict [(PyStr "values",
                             PyList [sample_entry 10; PyNone;
                                     PyDict [(PyStr "value", PyFloat 1)]])])])]
         [(PyStr "SE1",
           PyDict [(PyStr "values",
                    PyList [sample_entry 10; PyNone;
                            PyDict [(PyStr "value", PyFloat 1)]])])]
         [(PyStr "values",
           PyList [sample_entry 10; PyNone;
                   PyDict [(PyStr "value", PyFloat 1)]])]
         (PyStr "SE1")
         (PyList [sample_entry 10; PyNone;
                  PyDict [(PyStr "value", PyFloat 1)]])
         "SE1"
         [sample_entry 10; PyNone; PyDict [(PyStr "value", PyFloat 1)]]
         2 (PyDict [(PyStr "value", PyFloat 1)])
         [([LocField "areas"; LocItem (PyStr "SE1"); LocField "values";
            LocIndex 2; LocField "start"], MissingError)]
         _
         eq_refl eq_refl (or_introl eq_refl) eq_refl eq_refl eq_refl eq_refl
         eq_refl eq_refl)))))
      [(PyStr "value", PyFloat 1)] eq_refl eq_refl eq_refl).
Defined.
